(** * Trivia API: the request handlers of [backend/flaskr/__init__.py]

    A shallow embedding of the Flask application factory [create_app]:
    the Python values that travel through the handlers, the exceptions
    they raise, the question store they read and write, and the seven
    route handlers with the three registered error handlers.

    Modelling boundary.
    - Python values are the ones [request.get_json()] and [jsonify] deal
      with: [None], booleans, integers, strings, lists and dicts.  JSON
      numbers with a fractional part are outside the model.
    - A request is given by what the handlers read from it: the [page]
      query parameter after [type=int] coercion, and the parsed JSON body.
    - The store is the list of rows of each table, in the order a query
      without [order_by] returns them.  Queries are assumed to reach the
      database; what a query computes that the sources do not decide
      (ILIKE matching, the equality filter on the category column, the
      insertion of a row) is a parameter of the development.
    - [random.choice] reads its draws from an explicit list. *)

From Stdlib Require Import ZArith List String Ascii Bool Lia DecimalString.
From Stdlib Require Import Sorted Permutation.
Import ListNotations.
Open Scope string_scope.
Open Scope Z_scope.

Set Warnings "-register-all".

(** ** Python values *)

Inductive key : Type :=
| KInt (z : Z)
| KStr (s : string).

Inductive value : Type :=
| VNone
| VBool (b : bool)
| VInt (z : Z)
| VStr (s : string)
| VList (l : list value)
| VDict (d : list (key * value)).

Definition key_eqb (a b : key) : bool :=
  match a, b with
  | KInt x, KInt y => x =? y
  | KStr x, KStr y => String.eqb x y
  | _, _ => false
  end.

(** Dicts keep insertion order; [d[k] = v] overwrites in place. *)
Module Dict.

Fixpoint get {A} (d : list (key * A)) (k : key) : option A :=
  match d with
  | [] => None
  | (k', v) :: d' => if key_eqb k' k then Some v else get d' k
  end.

Fixpoint set {A} (d : list (key * A)) (k : key) (v : A) : list (key * A) :=
  match d with
  | [] => [(k, v)]
  | (k', v') :: d' =>
      if key_eqb k' k then (k', v) :: d' else (k', v') :: set d' k v
  end.

Definition mem {A} (d : list (key * A)) (k : key) : bool :=
  match get d k with Some _ => true | None => false end.

(** [d.get(k, default)]. *)
Definition get_default {A} (d : list (key * A)) (k : key) (default : A)
  : A :=
  match get d k with Some v => v | None => default end.

End Dict.

Definition bool_int (b : bool) : Z := if b then 1 else 0.

(** [a == b] on values.  [bool] is a subclass of [int], so [False == 0];
    dicts compare as mappings, whatever the insertion order. *)
Fixpoint py_eq (a b : value) {struct a} : bool :=
  match a, b with
  | VNone, VNone => true
  | VBool x, VBool y => Bool.eqb x y
  | VBool x, VInt y => bool_int x =? y
  | VInt x, VBool y => x =? bool_int y
  | VInt x, VInt y => x =? y
  | VStr x, VStr y => String.eqb x y
  | VList xs, VList ys =>
      (fix elements (xs ys : list value) {struct xs} : bool :=
         match xs, ys with
         | [], [] => true
         | x :: xs', y :: ys' => py_eq x y && elements xs' ys'
         | _, _ => false
         end) xs ys
  | VDict d1, VDict d2 =>
      Nat.eqb (List.length d1) (List.length d2)
      && (fix items (d : list (key * value)) {struct d} : bool :=
            match d with
            | [] => true
            | (k, v) :: d' =>
                match Dict.get d2 k with
                | Some w => py_eq v w && items d'
                | None => false
                end
            end) d1
  | _, _ => false
  end.

(** [bool(v)]. *)
Definition truthy (v : value) : bool :=
  match v with
  | VNone => false
  | VBool b => b
  | VInt z => negb (z =? 0)
  | VStr s => negb (String.eqb s "")
  | VList l => match l with [] => false | _ => true end
  | VDict d => match d with [] => false | _ => true end
  end.

Definition is_none (v : value) : bool :=
  match v with VNone => true | _ => false end.

(** ** Exceptions *)

Inductive py_error : Type :=
| AttributeError
| KeyError
| TypeError
| IndexError
| UnboundLocalError
| MultipleResultsFound
| IntegrityError.

Inductive exn : Type :=
| HTTPException (code : Z)
| PyException (e : py_error).

Inductive result (A : Type) : Type :=
| Ok (a : A)
| Raise (e : exn).

Arguments Ok {A} a.
Arguments Raise {A} e.

Definition raise {A} (e : py_error) : result A := Raise (PyException e).

(** ** Operations on values that can raise *)

(** [body.get(name, None)]: only dicts have a [get] method. *)
Definition py_get (body : value) (name : string) : result value :=
  match body with
  | VDict d => Ok (Dict.get_default d (KStr name) VNone)
  | _ => raise AttributeError
  end.

(** [obj[name]] with a string subscript. *)
Definition py_getitem (obj : value) (name : string) : result value :=
  match obj with
  | VDict d =>
      match Dict.get d (KStr name) with
      | Some v => Ok v
      | None => raise KeyError
      end
  | _ => raise TypeError
  end.

Fixpoint prefix_of (p s : string) : bool :=
  match p, s with
  | EmptyString, _ => true
  | String a p', String b s' => Ascii.eqb a b && prefix_of p' s'
  | String _ _, EmptyString => false
  end.

Fixpoint substring_of (p s : string) : bool :=
  prefix_of p s
  || match s with
     | EmptyString => false
     | String _ s' => substring_of p s'
     end.

(** [x in c]. *)
Definition py_in (x c : value) : result bool :=
  match c with
  | VList l => Ok (existsb (fun y => py_eq y x) l)
  | VStr s =>
      match x with
      | VStr p => Ok (substring_of p s)
      | _ => raise TypeError
      end
  | VDict d =>
      match x with
      | VNone => Ok false
      | VBool b => Ok (Dict.mem d (KInt (bool_int b)))
      | VInt z => Ok (Dict.mem d (KInt z))
      | VStr s => Ok (Dict.mem d (KStr s))
      | VList _ | VDict _ => raise TypeError
      end
  | VNone | VBool _ | VInt _ => raise TypeError
  end.

(** [len(c)]. *)
Definition py_len (c : value) : result Z :=
  match c with
  | VList l => Ok (Z.of_nat (List.length l))
  | VStr s => Ok (Z.of_nat (String.length s))
  | VDict d => Ok (Z.of_nat (List.length d))
  | VNone | VBool _ | VInt _ => raise TypeError
  end.

(** [l[start:stop]]: a negative index counts from the end, and both
    indices are clamped to the list. *)
Definition slice_index (len i : Z) : Z :=
  if i <? 0 then Z.max (i + len) 0 else Z.min i len.

Definition py_slice {A} (l : list A) (start stop : Z) : list A :=
  let len := Z.of_nat (List.length l) in
  let lo := slice_index len start in
  let hi := slice_index len stop in
  firstn (Z.to_nat (hi - lo)) (skipn (Z.to_nat lo) l).

(** ** Data model

    [models.py], which declares the two tables, is not among the
    sources; the rows and what the handlers call on them follow the data
    model of the spec. *)

Module Category.

(** Modelled from the spec: the [Category] row of [models.py],
    [{id: integer, type: string}]. *)
Record t : Type := { id : Z; type : string }.

End Category.

Module Question.

(** Modelled from the spec: the [Question] row of [models.py],
    [{id: integer, question: string, answer: string, category: integer,
    difficulty: integer}]. *)
Record t : Type :=
  { id : Z; question : string; answer : string;
    category : Z; difficulty : Z }.

(** Modelled from the spec: [Question.format] of [models.py], the
    formatted question: a dict with the five fields of the row. *)
Definition format (q : t) : value :=
  VDict [ (KStr "id", VInt (id q));
          (KStr "question", VStr (question q));
          (KStr "answer", VStr (answer q));
          (KStr "category", VInt (category q));
          (KStr "difficulty", VInt (difficulty q)) ].

End Question.

Record Store : Type :=
  { questions : list Question.t;
    categories : list Category.t }.

(** What a handler reads of the request: [request.args.get("page", 1,
    type=int)] sees [Some p] when the parameter is there and [int] accepts
    it, and [request.get_json()] gives [json]. *)
Record Request : Type :=
  { args_page : option Z;
    json : value }.

Inductive Body : Type :=
| Json (payload : value)
| DefaultErrorPage.

Record Response : Type :=
  { status : Z;
    body : Body }.

(** ** Handlers run in a state and exception monad over the store *)

Definition M (A : Type) : Type := Store -> result A * Store.

Definition ret {A} (a : A) : M A := fun db => (Ok a, db).

Definition bind {A B} (m : M A) (f : A -> M B) : M B :=
  fun db =>
    match m db with
    | (Ok a, db') => f a db'
    | (Raise e, db') => (Raise e, db')
    end.

Notation "x <- m ;; k" := (bind m (fun x => k))
  (at level 61, m at next level, right associativity).

Definition lift {A} (r : result A) : M A := fun db => (r, db).

(** [abort(code)]. *)
Definition abort {A} (code : Z) : M A := lift (Raise (HTTPException code)).

(** [try: m  except: h] with a bare [except]: it catches every exception,
    the one [abort] raises included. *)
Definition try_except {A} (m : M A) (h : M A) : M A :=
  fun db =>
    match m db with
    | (Ok a, db') => (Ok a, db')
    | (Raise _, db') => h db'
    end.

(** [jsonify(payload)]. *)
Definition jsonify (payload : list (key * value)) : M value :=
  ret (VDict payload).

(** *** Queries *)

Definition Question_query_all : M (list Question.t) :=
  fun db => (Ok (questions db), db).

Definition Category_query_all : M (list Category.t) :=
  fun db => (Ok (categories db), db).

(** [query.one_or_none()]. *)
Definition one_or_none {A} (rows : list A) : M (option A) :=
  match rows with
  | [] => ret None
  | [row] => ret (Some row)
  | _ => lift (raise MultipleResultsFound)
  end.

(** Modelled from the spec: [Question.delete] of [models.py] deletes the
    row from the store. *)
Definition Question_delete (q : Question.t) : M unit :=
  fun db =>
    (Ok tt,
     {| questions :=
          filter (fun r => negb (Question.id r =? Question.id q))
                 (questions db);
        categories := categories db |}).

Fixpoint insert_by_id (q : Question.t) (l : list Question.t)
  : list Question.t :=
  match l with
  | [] => [q]
  | r :: l' =>
      if Question.id q <=? Question.id r then q :: l
      else r :: insert_by_id q l'
  end.

(** [query.order_by(Question.id)]. *)
Definition order_by_id (l : list Question.t) : list Question.t :=
  fold_right insert_by_id [] l.

(** ** The application *)

Definition QUESTIONS_PER_PAGE : Z := 10.

Definition success (b : bool) : key * value := (KStr "success", VBool b).

(** The loop of [retrieve_categories] and [retrieve_questions] that fills
    [categories_dict]. *)
Definition categories_dict (categories : list Category.t)
  : list (key * value) :=
  fold_left
    (fun d category =>
       Dict.set d (KInt (Category.id category))
                (VStr (Category.type category)))
    categories [].

(** [GET /categories] (lines 34-48): the emptiness test comes after the
    dict is built, outside any [try]. *)
Definition retrieve_categories : M value :=
  categories <- Category_query_all ;;
  let categories_dict := categories_dict categories in
  if (Z.of_nat (List.length categories) =? 0)
  then abort 404
  else jsonify [ success true;
                 (KStr "categories", VDict categories_dict) ].

(** [request.args.get("page", 1, type=int)]. *)
Definition requested_page (request : Request) : Z :=
  match args_page request with Some p => p | None => 1 end.

(** [paginate_questions] (lines 54-62). *)
Definition paginate_questions (request : Request)
           (selection : list Question.t) : list value :=
  let page := requested_page request in
  let start := (page - 1) * QUESTIONS_PER_PAGE in
  let end_ := start + QUESTIONS_PER_PAGE in
  let questions := map Question.format selection in
  let current_questions := py_slice questions start end_ in
  current_questions.

(** [GET /questions] (lines 64-84). *)
Definition retrieve_questions (request : Request) : M value :=
  selection <- Question_query_all ;;
  let current_questions := paginate_questions request selection in
  categories <- Category_query_all ;;
  let categories_dict := categories_dict categories in
  if (Z.of_nat (List.length current_questions) =? 0)
  then abort 404
  else jsonify [ success true;
                 (KStr "questions", VList current_questions);
                 (KStr "total_questions",
                  VInt (Z.of_nat (List.length selection)));
                 (KStr "categories", VDict categories_dict) ].

(** [DELETE /questions/<int:question_id>] (lines 89-111): the whole body,
    [abort(404)] included, is inside the [try]. *)
Definition delete_question (request : Request) (question_id : Z) : M value :=
  try_except
    (rows <- Question_query_all ;;
     question <- one_or_none
                   (filter (fun q => Question.id q =? question_id) rows) ;;
     match question with
     | None => abort 404
     | Some question =>
         _ <- Question_delete question ;;
         selection <- Question_query_all ;;
         let current_questions := paginate_questions request selection in
         jsonify [ success true;
                   (KStr "deleted", VInt question_id);
                   (KStr "questions", VList current_questions);
                   (KStr "total_questions",
                    VInt (Z.of_nat (List.length selection))) ]
     end)
    (abort 422).

Section Collaborators.

(** ['{}'.format(v)], that is [str(v)]. *)
Variable py_str : value -> string.

(** [Question.question.ilike(pattern)] on the text of a row. *)
Variable ilike : string -> string -> bool.

(** The equality filter of the store on the category column, against
    the value the code passes. *)
Variable category_is : value -> Question.t -> bool.

(** [Question(question=.., answer=.., category=.., difficulty=..)]
    followed by [insert()]: the id of the new row, or the exception the
    store raises. *)
Variable Question_insert : value -> value -> value -> value -> M Z.

Definition search_pattern (search : value) : string :=
  "%" ++ py_str search ++ "%".

(** [POST /questions] (lines 116-162): the five [body.get] come before
    the [try]; both branches, [abort(422)] included, are inside it. *)
Definition create_question (request : Request) : M value :=
  let body := json request in
  new_question <- lift (py_get body "question") ;;
  new_answer <- lift (py_get body "answer") ;;
  new_category <- lift (py_get body "category") ;;
  new_difficulty <- lift (py_get body "difficulty") ;;
  search <- lift (py_get body "search") ;;
  try_except
    (if truthy search then
       rows <- Question_query_all ;;
       let selection :=
         filter (fun q => ilike (search_pattern search)
                                (Question.question q)) rows in
       let current_questions := paginate_questions request selection in
       everything <- Question_query_all ;;
       jsonify [ success true;
                 (KStr "questions", VList current_questions);
                 (KStr "total_questions",
                  VInt (Z.of_nat (List.length everything))) ]
     else
       _ <- (if is_none new_question || is_none new_answer
                || is_none new_difficulty || is_none new_category
             then abort 422 else ret tt) ;;
       question_id <- Question_insert new_question new_answer
                                      new_category new_difficulty ;;
       rows <- Question_query_all ;;
       let selection := order_by_id rows in
       let current_questions := paginate_questions request selection in
       jsonify [ success true;
                 (KStr "created", VInt question_id);
                 (KStr "questions", VList current_questions);
                 (KStr "total_questions",
                  VInt (Z.of_nat (List.length selection))) ])
    (abort 422).

(** [POST /questions/search] (lines 168-187): [selection] is bound only
    when [search] is truthy; reading it otherwise raises
    [UnboundLocalError]. *)
Definition search_questions (request : Request) : M value :=
  let body := json request in
  search <- lift (py_get body "searchTerm") ;;
  try_except
    (selection <-
       (if truthy search then
          rows <- Question_query_all ;;
          ret (filter (fun q => ilike (search_pattern search)
                                      (Question.question q)) rows)
        else lift (raise UnboundLocalError)) ;;
     let paginated := paginate_questions request selection in
     jsonify [ success true;
               (KStr "questions", VList paginated);
               (KStr "total_questions",
                VInt (Z.of_nat (List.length selection))) ])
    (abort 404).

(** [GET /categories/<int:category_id>/questions] (lines 191-204). *)
Definition retrieve_questions_by_category (category_id : Z) : M value :=
  try_except
    (rows <- Question_query_all ;;
     let questions :=
       filter (category_is (VStr (py_str (VInt category_id)))) rows in
     jsonify [ success true;
               (KStr "questions", VList (map Question.format questions));
               (KStr "total_questions",
                VInt (Z.of_nat (List.length questions)));
               (KStr "current_category", VInt category_id) ])
    (abort 400).

End Collaborators.

(** *** The quiz

    [random.choice] takes its [k]-th draw from the oracle [random]; the
    [while] loop runs on [fuel], and [None] stands for a loop that is
    still running when the fuel is spent. *)

(** [random.choice(seq)] with draw [r]. *)
Definition choice {A} (seq : list A) (r : nat) : result A :=
  match seq with
  | [] => raise IndexError
  | a :: _ => Ok (nth (r mod List.length seq) seq a)
  end.

Section Quiz.

Variable category_is : value -> Question.t -> bool.
Variable random : nat -> nat.

Section Closure.

Variable quiz : list Question.t.
Variable previous_questions : value.

(** [random_question] (lines 223-224), at the [k]-th draw. *)
Definition random_question (k : nat) : result value :=
  match choice quiz (random k) with
  | Ok q => Ok (Question.format q)
  | Raise e => Raise e
  end.

(** [if_used] (lines 228-232). *)
Definition if_used (new_question : value) : result bool :=
  match py_in new_question previous_questions with
  | Ok true => Ok true
  | Ok false => Ok false
  | Raise e => Raise e
  end.

(** The [while] loop and the final [return] (lines 233-244). *)
Fixpoint quiz_loop (fuel k : nat) (new_question : value)
  : option (result value) :=
  match if_used new_question with
  | Raise e => Some (Raise e)
  | Ok false =>
      Some (Ok (VDict [ success true;
                        (KStr "question", new_question) ]))
  | Ok true =>
      match fuel with
      | O => None
      | S fuel' =>
          match random_question k with
          | Raise e => Some (Raise e)
          | Ok new_question' =>
              match py_len previous_questions with
              | Raise e => Some (Raise e)
              | Ok n =>
                  if n =? Z.of_nat (List.length quiz)
                  then Some (Ok (VDict [ success true ]))
                  else quiz_loop fuel' (S k) new_question'
              end
          end
      end
  end.

End Closure.

(** [POST /quizzes] up to the first draw (lines 212-226): the history,
    the pool and the first candidate.  Nothing here is inside a [try]. *)
Definition quiz_setup (request : Request)
  : M (value * list Question.t * value) :=
  let body := json request in
  previous_questions <- lift (py_get body "previous_questions") ;;
  category <- lift (py_get body "quiz_category") ;;
  _ <- (if py_eq category VNone || py_eq previous_questions VNone
        then abort 422 else ret tt) ;;
  category_id <- lift (py_getitem category "id") ;;
  rows <- Question_query_all ;;
  let quiz :=
    if py_eq category_id (VInt 0) then rows
    else filter (category_is category_id) rows in
  new_question <- lift (random_question quiz 0) ;;
  ret (previous_questions, quiz, new_question).

(** [POST /quizzes] (lines 210-244). *)
Definition play_quiz (fuel : nat) (request : Request) (db : Store)
  : option (result value * Store) :=
  match quiz_setup request db with
  | (Raise e, db') => Some (Raise e, db')
  | (Ok (previous_questions, quiz, new_question), db') =>
      match quiz_loop quiz previous_questions fuel 1 new_question with
      | Some r => Some (r, db')
      | None => None
      end
  end.

End Quiz.

(** *** Error handlers and the response Flask sends *)

(** The three registered handlers (lines 250-272). *)
Definition error_body (code : Z) (message : string) : Body :=
  Json (VDict [ success false;
                (KStr "error", VInt code);
                (KStr "message", VStr message) ]).

Definition not_found : Response :=
  {| status := 404; body := error_body 404 "resource not found" |}.

Definition unprocessable : Response :=
  {| status := 422; body := error_body 422 "unprocessable" |}.

Definition bad_request : Response :=
  {| status := 400; body := error_body 400 "bad request" |}.

(** An [HTTPException] goes to the handler registered for its code, or
    becomes the default page of that code; any other exception is an
    internal server error. *)
Definition handle_exception (e : exn) : Response :=
  match e with
  | HTTPException code =>
      if code =? 404 then not_found
      else if code =? 422 then unprocessable
      else if code =? 400 then bad_request
      else {| status := code; body := DefaultErrorPage |}
  | PyException _ => {| status := 500; body := DefaultErrorPage |}
  end.

Definition respond (r : result value) : Response :=
  match r with
  | Ok payload => {| status := 200; body := Json payload |}
  | Raise e => handle_exception e
  end.

(** A handler run on a store: the response and the store it leaves. *)
Definition serve (handler : M value) (db : Store) : Response * Store :=
  let (r, db') := handler db in (respond r, db').

Definition serve_quiz (played : option (result value * Store))
  : option (Response * Store) :=
  match played with
  | Some (r, db') => Some (respond r, db')
  | None => None
  end.

(** *** Routing *)

Inductive Route : Type :=
| GET_categories
| GET_questions
| DELETE_questions (question_id : Z)
| POST_questions
| POST_questions_search
| GET_categories_questions (category_id : Z)
| POST_quizzes.

Section App.

Variable py_str : value -> string.
Variable ilike : string -> string -> bool.
Variable category_is : value -> Question.t -> bool.
Variable Question_insert : value -> value -> value -> value -> M Z.
Variable random : nat -> nat.

Definition app (fuel : nat) (route : Route) (request : Request)
           (db : Store) : option (Response * Store) :=
  match route with
  | GET_categories => Some (serve retrieve_categories db)
  | GET_questions => Some (serve (retrieve_questions request) db)
  | DELETE_questions question_id =>
      Some (serve (delete_question request question_id) db)
  | POST_questions =>
      Some (serve (create_question py_str ilike Question_insert request) db)
  | POST_questions_search =>
      Some (serve (search_questions py_str ilike request) db)
  | GET_categories_questions category_id =>
      Some (serve (retrieve_questions_by_category py_str category_is
                     category_id) db)
  | POST_quizzes =>
      serve_quiz (play_quiz category_is random fuel request db)
  end.

End App.

(** The responses the error mapper accounts for: a payload, or an
    [abort] with one of the three registered codes. *)
Definition expected (r : result value) : Prop :=
  match r with
  | Ok _ => True
  | Raise (HTTPException code) => code = 400 \/ code = 404 \/ code = 422
  | Raise (PyException _) => False
  end.

Definition questions_payload (page : list value) (total : nat)
           (categories : list Category.t) : value :=
  VDict [ success true;
          (KStr "questions", VList page);
          (KStr "total_questions", VInt (Z.of_nat total));
          (KStr "categories", VDict (categories_dict categories)) ].

(** ** The slice the spec describes

    The 0-based half-open slice [[a : b]] of a sequence, for [a <= b]
    counted from the front: drop [a] elements, keep [b - a]. *)
Definition half_open_slice {A} (l : list A) (a b : nat) : list A :=
  firstn (b - a) (skipn a l).

(** A page number is out of range for the fetched sequence when it is
    less than 1 or lies beyond the last non-empty page. *)
Definition out_of_range (request : Request) (selection : list Question.t)
  : Prop :=
  requested_page request < 1
  \/ Z.of_nat (List.length selection)
     <= (requested_page request - 1) * QUESTIONS_PER_PAGE.

(** ** An instance of the collaborators, for the examples

    [str] as Python has it, ILIKE on ASCII text with its two wildcards, the
    category filter by number or by its decimal text, and an insertion
    that numbers the new row after the largest id. *)
Module Fixture.

Definition decimal (z : Z) : string := NilZero.string_of_int (Z.to_int z).

Definition single_quote : ascii := ascii_of_nat 39.
Definition double_quote : ascii := ascii_of_nat 34.
Definition backslash : ascii := ascii_of_nat 92.

Definition char (c : ascii) : string := String c EmptyString.

Fixpoint has (c : ascii) (s : string) : bool :=
  match s with
  | EmptyString => false
  | String d s' => Ascii.eqb c d || has c s'
  end.

Definition hex_digit (n : nat) : string :=
  match String.get n "0123456789abcdef" with
  | Some c => char c
  | None => "0"
  end.

(** One character of [repr(s)] for a string quoted with [quote].  Text
    outside ASCII is UTF-8 of printable characters, which [repr] leaves
    as they are. *)
Definition escape (quote c : ascii) : string :=
  let n := nat_of_ascii c in
  if Ascii.eqb c quote || Ascii.eqb c backslash then
    (char backslash ++ char c)%string
  else if (n =? 9)%nat then (char backslash ++ "t")%string
  else if (n =? 10)%nat then (char backslash ++ "n")%string
  else if (n =? 13)%nat then (char backslash ++ "r")%string
  else if ((n <? 32) || (n =? 127))%nat then
    (char backslash ++ "x" ++ hex_digit (n / 16) ++ hex_digit (n mod 16))%string
  else char c.

Fixpoint escaped (quote : ascii) (s : string) : string :=
  match s with
  | EmptyString => EmptyString
  | String c s' => (escape quote c ++ escaped quote s')%string
  end.

(** [repr(s)] for a string: single quotes, unless the string holds a
    single quote and no double quote. *)
Definition repr_str (s : string) : string :=
  let quote :=
    if has single_quote s && negb (has double_quote s)
    then double_quote else single_quote in
  (char quote ++ escaped quote s ++ char quote)%string.

Definition repr_key (k : key) : string :=
  match k with
  | KInt z => decimal z
  | KStr s => repr_str s
  end.

(** [repr(v)]. *)
Fixpoint repr (v : value) : string :=
  match v with
  | VNone => "None"
  | VBool true => "True"
  | VBool false => "False"
  | VInt z => decimal z
  | VStr s => repr_str s
  | VList l =>
      ("["
       ++ (fix elements (l : list value) : string :=
             match l with
             | [] => EmptyString
             | x :: l' =>
                 repr x
                 ++ match l' with
                    | [] => EmptyString
                    | _ :: _ => ", " ++ elements l'
                    end
             end) l
       ++ "]")%string
  | VDict d =>
      ("{"
       ++ (fix items (d : list (key * value)) : string :=
             match d with
             | [] => EmptyString
             | (k, x) :: d' =>
                 repr_key k ++ ": " ++ repr x
                 ++ match d' with
                    | [] => EmptyString
                    | _ :: _ => ", " ++ items d'
                    end
             end) d
       ++ "}")%string
  end.

(** [str(v)]: a string is itself, anything else is its [repr]. *)
Definition str (v : value) : string :=
  match v with
  | VStr s => s
  | _ => repr v
  end.

Definition lower (c : ascii) : ascii :=
  let n := nat_of_ascii c in
  if ((65 <=? n) && (n <=? 90))%nat then ascii_of_nat (n + 32) else c.

Fixpoint like (pattern text : string) {struct pattern} : bool :=
  match pattern with
  | EmptyString =>
      match text with EmptyString => true | _ => false end
  | String c pattern' =>
      if Ascii.eqb c "%" then
        (fix skip (text : string) : bool :=
           like pattern' text
           || match text with
              | EmptyString => false
              | String _ text' => skip text'
              end) text
      else
        match text with
        | EmptyString => false
        | String t text' =>
            (Ascii.eqb c "_" || Ascii.eqb (lower c) (lower t))
            && like pattern' text'
        end
  end.

Definition ilike (pattern text : string) : bool := like pattern text.

Definition category_is (v : value) (q : Question.t) : bool :=
  match v with
  | VInt z => z =? Question.category q
  | VStr s => String.eqb s (decimal (Question.category q))
  | _ => false
  end.

Definition next_id (rows : list Question.t) : Z :=
  1 + fold_right (fun q m => Z.max (Question.id q) m) 0 rows.

Definition insert (question answer category difficulty : value) : M Z :=
  fun db =>
    match question, answer, category, difficulty with
    | VStr q, VStr a, VInt c, VInt d =>
        let i := next_id (questions db) in
        (Ok i,
         {| questions :=
              questions db
              ++ [ {| Question.id := i; Question.question := q;
                      Question.answer := a; Question.category := c;
                      Question.difficulty := d |} ];
            categories := categories db |})
    | _, _, _, _ => (raise IntegrityError, db)
    end.

Definition science : Category.t := {| Category.id := 1; Category.type := "Science" |}.
Definition art : Category.t := {| Category.id := 2; Category.type := "Art" |}.

Definition question (i : Z) (text : string) (c : Z) : Question.t :=
  {| Question.id := i; Question.question := text;
     Question.answer := "42"; Question.category := c;
     Question.difficulty := 1 |}.

Definition q1 : Question.t := question 1 "What is the boiling point of water?" 1.
Definition q2 : Question.t := question 2 "Who discovered penicillin?" 1.
Definition q3 : Question.t := question 3 "Who painted the Water Lilies?" 2.

Definition trivia : Store :=
  {| questions := [q1; q2; q3]; categories := [science; art] |}.

Definition single : Store :=
  {| questions := [q1]; categories := [science; art] |}.

Definition no_questions : Store :=
  {| questions := []; categories := [science; art] |}.

Definition no_categories : Store :=
  {| questions := [q1; q2; q3]; categories := [] |}.

Definition get_request : Request := {| args_page := None; json := VNone |}.

Definition post_request (fields : list (key * value)) : Request :=
  {| args_page := None; json := VDict fields |}.

(** Questions numbered [1 .. n], for the examples. *)
Definition numbered (n : nat) : list Question.t :=
  map (fun i => {| Question.id := Z.of_nat i;
                   Question.question := "What is the title?";
                   Question.answer := "Trivia";
                   Question.category := 1;
                   Question.difficulty := 2 |})
      (seq 1 n).

Definition page_request (p : Z) : Request :=
  {| args_page := Some p; json := VNone |}.

Definition quiz_request (previous_questions : list value) (category_id : Z)
  : Request :=
  post_request
    [ (KStr "previous_questions", VList previous_questions);
      (KStr "quiz_category",
       VDict [ (KStr "type", VStr "click"); (KStr "id", VInt category_id) ]) ].

End Fixture.

(** ** Further notions the properties are stated with *)

(** The pool [quiz] of [play_quiz] (lines 218-221). *)
Definition quiz_pool (category_is : value -> Question.t -> bool)
           (category_id : value) (rows : list Question.t)
  : list Question.t :=
  if py_eq category_id (VInt 0) then rows
  else filter (category_is category_id) rows.

(** The pages [1 .. n] of a selection, one after the other. *)
Definition first_pages (n : nat) (selection : list Question.t)
  : list value :=
  flat_map
    (fun i => paginate_questions (Fixture.page_request (Z.of_nat i))
                                 selection)
    (seq 1 n).

(** The row a lookup of id [i] in [categories_dict] comes from: the last
    one with that id. *)
Definition last_category (i : Z) (categories : list Category.t)
  : option Category.t :=
  find (fun c => Category.id c =? i) (rev categories).

(** The payloads of the handlers that list questions. *)
Definition listing_payload (head : list (key * value)) (page : list value)
           (total : nat) : value :=
  VDict (success true
         :: (head
             ++ [ (KStr "questions", VList page);
                  (KStr "total_questions", VInt (Z.of_nat total)) ])%list).

(** The order [order_by(Question.id)] asks for. *)
Definition id_le (a b : Question.t) : Prop :=
  Question.id a <= Question.id b.

(** The store after the row of id [question_id] is deleted. *)
Definition without (question_id : Z) (db : Store) : Store :=
  {| questions :=
       filter (fun r => negb (Question.id r =? question_id)) (questions db);
     categories := categories db |}.

(** The page the pager gives for page number [p], counted on the
    sequence itself: from the front for [p >= 1], nothing for [p = 0],
    and for [p < 0] the slice [[N + (p-1)*10 : N + p*10]] with both ends
    raised to 0, that is, counted from the end. *)
Definition page_slice {A} (p : Z) (l : list A) : list A :=
  let N := Z.of_nat (List.length l) in
  if 1 <=? p then
    half_open_slice l (Z.to_nat ((p - 1) * 10)) (Z.to_nat ((p - 1) * 10 + 10))
  else if p =? 0 then []
  else
    half_open_slice l (Z.to_nat (N + (p - 1) * 10)) (Z.to_nat (N + p * 10)).








(** The routes whose handler writes to the store. *)
Definition writes (route : Route) : bool :=
  match route with
  | DELETE_questions _ | POST_questions => true
  | _ => false
  end.

(** The routes whose handler reads the JSON body. *)
Definition reads_body (route : Route) : bool :=
  match route with
  | POST_questions | POST_questions_search | POST_quizzes => true
  | _ => false
  end.

Definition ok (payload : value) : Response :=
  {| status := 200; body := Json payload |}.

Definition internal_server_error : Response :=
  {| status := 500; body := DefaultErrorPage |}.

(** * Properties *)

(** ** Values *)

Lemma key_eqb_eq (a b : key) : key_eqb a b = true <-> a = b.
Proof.
  destruct a, b; simpl; split; intro H; try discriminate.
  - apply Z.eqb_eq in H. now subst.
  - injection H as ->. apply Z.eqb_refl.
  - apply String.eqb_eq in H. now subst.
  - injection H as ->. apply String.eqb_refl.
Qed.

(** ** Slicing *)

Lemma slice_index_range (len i : Z) :
  0 <= len -> 0 <= slice_index len i <= len.
Proof.
  unfold slice_index. destruct (Z.ltb_spec i 0); lia.
Qed.

Lemma py_slice_length {A} (l : list A) (start stop : Z) :
  let len := Z.of_nat (List.length l) in
  Z.of_nat (List.length (py_slice l start stop)) =
    Z.max 0 (slice_index len stop - slice_index len start).
Proof.
  intro len. unfold py_slice. fold len.
  pose proof (slice_index_range len start (Nat2Z.is_nonneg (List.length l))) as Hlo.
  pose proof (slice_index_range len stop (Nat2Z.is_nonneg (List.length l))) as Hhi.
  fold len in Hlo, Hhi.
  rewrite length_firstn, length_skipn. subst len. lia.
Qed.

Lemma py_slice_front {A} (l : list A) (start stop : Z) :
  0 <= start <= stop ->
  py_slice l start stop =
    half_open_slice l (Z.to_nat start) (Z.to_nat stop).
Proof.
  intros [Hs Hle]. unfold py_slice, half_open_slice, slice_index.
  set (len := Z.of_nat (List.length l)).
  destruct (Z.ltb_spec start 0) as [|_]; [lia|].
  destruct (Z.ltb_spec stop 0) as [|_]; [lia|].
  destruct (Z_le_gt_dec len start) as [Hout|Hin].
  - (* the slice starts at or after the end *)
    rewrite (skipn_all2 (n := Z.to_nat start)) by (subst len; lia).
    rewrite firstn_nil.
    replace (Z.to_nat (Z.min stop len - Z.min start len)) with O by lia.
    reflexivity.
  - replace (Z.min start len) with start by lia.
    destruct (Z_le_gt_dec stop len) as [Hfit|Hcut].
    + replace (Z.min stop len) with stop by lia.
      f_equal. lia.
    + replace (Z.min stop len) with len by lia.
      rewrite !firstn_all2; try reflexivity;
        rewrite length_skipn; subst len; lia.
Qed.

(** ** Pagination *)

Lemma paginate_questions_length (request : Request)
      (selection : list Question.t) :
  let len := Z.of_nat (List.length selection) in
  let start := (requested_page request - 1) * QUESTIONS_PER_PAGE in
  Z.of_nat (List.length (paginate_questions request selection)) =
    Z.max 0 (slice_index len (start + QUESTIONS_PER_PAGE)
             - slice_index len start).
Proof.
  unfold paginate_questions. cbv zeta.
  rewrite py_slice_length, length_map. reflexivity.
Qed.

Lemma paginate_questions_beyond (request : Request)
      (selection : list Question.t) :
  1 <= requested_page request ->
  Z.of_nat (List.length selection) <= (requested_page request - 1) * 10 ->
  paginate_questions request selection = [].
Proof.
  intros Hp Hbeyond. apply length_zero_iff_nil.
  pose proof (paginate_questions_length request selection) as Hlen.
  cbv zeta in Hlen. unfold slice_index, QUESTIONS_PER_PAGE in Hlen.
  destruct (Z.ltb_spec ((requested_page request - 1) * 10 + 10) 0);
    destruct (Z.ltb_spec ((requested_page request - 1) * 10) 0); lia.
Qed.

Lemma paginate_questions_nothing (request : Request) :
  paginate_questions request [] = [].
Proof.
  unfold paginate_questions, py_slice. cbv zeta.
  rewrite skipn_nil, firstn_nil. reflexivity.
Qed.

(** C6.  For a page number [p >= 1] and a fetched sequence of [N]
    questions, the page has length [min(10, max(0, N - (p-1)*10))] and is
    the 0-based half-open slice [[(p-1)*10 : (p-1)*10 + 10]] of the
    formatted sequence. *)
Theorem paginate_questions_page (request : Request)
        (selection : list Question.t) (p : Z) :
  requested_page request = p ->
  1 <= p ->
  let N := Z.of_nat (List.length selection) in
  let page := paginate_questions request selection in
  Z.of_nat (List.length page) = Z.min 10 (Z.max 0 (N - (p - 1) * 10))
  /\ page = half_open_slice (map Question.format selection)
                            (Z.to_nat ((p - 1) * 10))
                            (Z.to_nat ((p - 1) * 10 + 10)).
Proof.
  intros Hp Hge N page. split.
  - subst page. rewrite paginate_questions_length. fold N. rewrite Hp.
    unfold slice_index, QUESTIONS_PER_PAGE.
    destruct (Z.ltb_spec ((p - 1) * 10 + 10) 0); [lia|].
    destruct (Z.ltb_spec ((p - 1) * 10) 0); lia.
  - subst page. unfold paginate_questions. cbv zeta. rewrite Hp.
    unfold QUESTIONS_PER_PAGE. apply py_slice_front. lia.
Qed.

Lemma paginate_questions_page_witness :
  Z.of_nat (List.length (paginate_questions (Fixture.page_request 2) (Fixture.numbered 13)))
  = 3
  /\ paginate_questions (Fixture.page_request 2) (Fixture.numbered 13)
     = half_open_slice (map Question.format (Fixture.numbered 13)) 10 20.
Proof.
  apply (paginate_questions_page (Fixture.page_request 2)
                                 (Fixture.numbered 13) 2).
  - reflexivity.
  - lia.
Defined.

Lemma paginate_questions_slice (request : Request)
      (selection : list Question.t) :
  paginate_questions request selection
  = page_slice (requested_page request) (map Question.format selection).
Proof.
  unfold paginate_questions, page_slice, QUESTIONS_PER_PAGE. cbv zeta.
  set (p := requested_page request).
  set (l := map Question.format selection).
  destruct (Z.leb_spec 1 p) as [Hfront|Hback].
  - apply py_slice_front. lia.
  - unfold py_slice, half_open_slice, slice_index.
    set (N := Z.of_nat (List.length l)).
    assert (HN : 0 <= N) by apply Nat2Z.is_nonneg.
    destruct (Z.ltb_spec ((p - 1) * 10) 0); [|lia].
    destruct (Z.eqb_spec p 0) as [Hzero|Hneg].
    + destruct (Z.ltb_spec ((p - 1) * 10 + 10) 0); [lia|].
      replace (Z.to_nat (Z.min ((p - 1) * 10 + 10) N
                         - Z.max ((p - 1) * 10 + N) 0)) with O by lia.
      reflexivity.
    + destruct (Z.ltb_spec ((p - 1) * 10 + 10) 0); [|lia].
      f_equal; [|f_equal]; lia.
Qed.

(** C5, as the code has it.  Pagination is a total function: it raises
    for no page number.  The page is [page_slice]: from the front for
    [p >= 1], nothing for [p = 0], and for [p < 0] the slice
    [[N + (p-1)*10 : N + p*10]] with both ends raised to 0, which is what
    Python's negative indices count from the end.  So the page is empty
    exactly when [p >= 1] lies beyond the data, when [p = 0], or when
    [p < 0] and the sequence has at most [10 * |p|] elements. *)
Theorem paginate_questions_empty_iff (request : Request)
        (selection : list Question.t) :
  let p := requested_page request in
  let N := Z.of_nat (List.length selection) in
  paginate_questions request selection
  = page_slice p (map Question.format selection)
  /\ (paginate_questions request selection = []
      <-> (1 <= p /\ N <= (p - 1) * 10) \/ p = 0
          \/ (p < 0 /\ N <= - p * 10)).
Proof.
  intros p N. split; [apply paginate_questions_slice|].
  pose proof (paginate_questions_length request selection) as Hlen.
  cbv zeta in Hlen. fold p N in Hlen.
  unfold slice_index, QUESTIONS_PER_PAGE in Hlen.
  assert (HN : 0 <= N) by apply Nat2Z.is_nonneg.
  split.
  - intro Hnil. rewrite Hnil in Hlen. simpl in Hlen.
    destruct (Z.ltb_spec ((p - 1) * 10 + 10) 0);
      destruct (Z.ltb_spec ((p - 1) * 10) 0); lia.
  - intro Hcases. apply length_zero_iff_nil.
    destruct (Z.ltb_spec ((p - 1) * 10 + 10) 0);
      destruct (Z.ltb_spec ((p - 1) * 10) 0); lia.
Qed.

(** C5, as stated, fails: page [-1] is out of range, yet on 15 questions
    it returns the first five. *)
Lemma paginate_questions_negative_page :
  out_of_range (Fixture.page_request (-1)) (Fixture.numbered 15)
  /\ paginate_questions (Fixture.page_request (-1)) (Fixture.numbered 15)
     = map Question.format (Fixture.numbered 5)
  /\ paginate_questions (Fixture.page_request (-1)) (Fixture.numbered 15) <> [].
Proof.
  split; [left; vm_compute; reflexivity|].
  split; [vm_compute; reflexivity|].
  vm_compute. discriminate.
Qed.


(** ** Listing *)

Lemma retrieve_questions_run (request : Request) (db : Store) :
  retrieve_questions request db =
    (match paginate_questions request (questions db) with
     | [] => Raise (HTTPException 404)
     | page =>
         Ok (questions_payload page (List.length (questions db))
                               (categories db))
     end, db).
Proof.
  unfold retrieve_questions, bind, Question_query_all, Category_query_all.
  destruct (paginate_questions request (questions db)); reflexivity.
Qed.

(** ** Deletion *)

Lemma filter_absent (question_id : Z) (rows : list Question.t) :
  (forall q, In q rows -> Question.id q <> question_id) ->
  filter (fun q => Question.id q =? question_id) rows = [].
Proof.
  induction rows as [|r rows IH]; intro Habsent; simpl.
  - reflexivity.
  - destruct (Z.eqb_spec (Question.id r) question_id) as [Heq|_].
    + exfalso. apply (Habsent r); [left; reflexivity | exact Heq].
    + apply IH. intros q Hq. apply Habsent. right. exact Hq.
Qed.

(** DELETE /questions/{id} for an id that no question has: the
    [abort(404)] of the handler is raised inside its own [try], the bare
    [except] catches it, and the response is the one of [abort(422)].
    The store is not changed. *)
Lemma delete_question_absent (request : Request) (question_id : Z)
      (db : Store) :
  (forall q, In q (questions db) -> Question.id q <> question_id) ->
  delete_question request question_id db = (Raise (HTTPException 422), db)
  /\ serve (delete_question request question_id) db = (unprocessable, db).
Proof.
  intro Habsent.
  assert (Hrun : delete_question request question_id db
                 = (Raise (HTTPException 422), db)).
  { unfold delete_question, try_except, bind, Question_query_all.
    rewrite (filter_absent question_id (questions db) Habsent). reflexivity. }
  split; [exact Hrun|]. unfold serve. rewrite Hrun. reflexivity.
Qed.

(** C2, on the code.  Question 5 is not in the store, and
    DELETE /questions/5 answers 422, not 404; the store is unchanged. *)
Theorem delete_question_absent_is_422 :
  (forall q, In q (questions Fixture.trivia) -> Question.id q <> 5)
  /\ serve (delete_question Fixture.get_request 5) Fixture.trivia
     = (unprocessable, Fixture.trivia)
  /\ status unprocessable = 422
  /\ status unprocessable <> 404.
Proof.
  assert (Habsent : forall q, In q (questions Fixture.trivia) ->
                              Question.id q <> 5).
  { intros q [<-|[<-|[<-|[]]]]; discriminate. }
  split; [exact Habsent|].
  split; [apply (delete_question_absent Fixture.get_request 5 Fixture.trivia Habsent)|].
  split; [reflexivity | discriminate].
Qed.

(** The sibling path: an id that one question has is deleted, and the
    response lists what is left. *)
Lemma delete_question_present :
  serve (delete_question Fixture.get_request 2) Fixture.trivia
  = ({| status := 200;
        body := Json (VDict [ success true;
                              (KStr "deleted", VInt 2);
                              (KStr "questions",
                               VList [ Question.format Fixture.q1;
                                       Question.format Fixture.q3 ]);
                              (KStr "total_questions", VInt 2) ]) |},
     {| questions := [Fixture.q1; Fixture.q3];
        categories := categories Fixture.trivia |}).
Proof. reflexivity. Qed.

(** ** Creation and inline search *)





Section CreateQuestion.

Variable py_str : value -> string.
Variable ilike : string -> string -> bool.
Variable Question_insert : value -> value -> value -> value -> M Z.

(** C8, as the code has it.  POST /questions with a JSON object whose
    [search] is not truthy and in which one of [question], [answer],
    [category], [difficulty] is null or missing answers 422, with the
    body of the 422 handler, and the store is unchanged: the insertion
    is not reached. *)
Theorem create_question_missing_field (request : Request) (db : Store)
        (fields : list (key * value)) :
  json request = VDict fields ->
  truthy (Dict.get_default fields (KStr "search") VNone) = false ->
  Dict.get_default fields (KStr "question") VNone = VNone
  \/ Dict.get_default fields (KStr "answer") VNone = VNone
  \/ Dict.get_default fields (KStr "category") VNone = VNone
  \/ Dict.get_default fields (KStr "difficulty") VNone = VNone ->
  serve (create_question py_str ilike Question_insert request) db
  = ({| status := 422;
        body := Json (VDict [ (KStr "success", VBool false);
                              (KStr "error", VInt 422);
                              (KStr "message", VStr "unprocessable") ]) |},
     db).
Proof.
  intros Hbody Hsearch Hmissing.
  unfold serve, create_question, try_except, bind, lift, py_get.
  rewrite Hbody, Hsearch.
  assert (Hnone :
            is_none (Dict.get_default fields (KStr "question") VNone)
            || is_none (Dict.get_default fields (KStr "answer") VNone)
            || is_none (Dict.get_default fields (KStr "difficulty") VNone)
            || is_none (Dict.get_default fields (KStr "category") VNone)
            = true).
  { destruct Hmissing as [H|[H|[H|H]]]; rewrite H; simpl;
      rewrite ?orb_true_r; reflexivity. }
  rewrite Hnone. reflexivity.
Qed.


End CreateQuestion.

Lemma create_question_missing_field_witness :
  serve (create_question Fixture.str Fixture.ilike Fixture.insert
           (Fixture.post_request
              [ (KStr "question", VStr "Who wrote Dracula?");
                (KStr "answer", VStr "Bram Stoker");
                (KStr "category", VInt 2) ]))
        Fixture.trivia
  = ({| status := 422;
        body := Json (VDict [ (KStr "success", VBool false);
                              (KStr "error", VInt 422);
                              (KStr "message", VStr "unprocessable") ]) |},
     Fixture.trivia).
Proof.
  apply (create_question_missing_field Fixture.str Fixture.ilike
           Fixture.insert _ Fixture.trivia
           [ (KStr "question", VStr "Who wrote Dracula?");
             (KStr "answer", VStr "Bram Stoker");
             (KStr "category", VInt 2) ]).
  - reflexivity.
  - reflexivity.
  - right. right. right. reflexivity.
Defined.

(** C8, as stated, fails: a body that is a JSON list has no truthy
    [search] and none of the four fields, and the answer is 500, not
    422; [body.get] raises before the [try]. *)
Lemma create_question_list_body :
  serve (create_question Fixture.str Fixture.ilike Fixture.insert
           {| args_page := None; json := VList [] |})
        Fixture.trivia
  = ({| status := 500; body := DefaultErrorPage |}, Fixture.trivia)
  /\ 500 <> 422.
Proof. split; [reflexivity | discriminate]. Qed.



(** With the four fields the question is inserted and listed. *)
Lemma create_question_created :
  serve (create_question Fixture.str Fixture.ilike Fixture.insert
           (Fixture.post_request
              [ (KStr "question", VStr "Who wrote Dracula?");
                (KStr "answer", VStr "Bram Stoker");
                (KStr "category", VInt 2);
                (KStr "difficulty", VInt 3) ]))
        Fixture.no_questions
  = ({| status := 200;
        body := Json (VDict [ success true;
                              (KStr "created", VInt 1);
                              (KStr "questions",
                               VList [ Question.format
                                         {| Question.id := 1;
                                            Question.question :=
                                              "Who wrote Dracula?";
                                            Question.answer := "Bram Stoker";
                                            Question.category := 2;
                                            Question.difficulty := 3 |} ]);
                              (KStr "total_questions", VInt 1) ]) |},
     {| questions := [ {| Question.id := 1;
                          Question.question := "Who wrote Dracula?";
                          Question.answer := "Bram Stoker";
                          Question.category := 2;
                          Question.difficulty := 3 |} ];
        categories := categories Fixture.no_questions |}).
Proof. reflexivity. Qed.

(** ** The quiz *)

(** A formatted question is a dict, and a dict equals no integer: on a
    history of ids [if_used] answers [False] for every candidate. *)
Lemma if_used_ids (ids : list Z) (q : Question.t) :
  if_used (VList (map VInt ids)) (Question.format q) = Ok false.
Proof.
  unfold if_used, py_in.
  replace (existsb (fun y => py_eq y (Question.format q)) (map VInt ids))
    with false; [reflexivity|].
  induction ids as [|i ids IH]; simpl; [reflexivity | exact IH].
Qed.

(** So, on a history of ids, the loop is not entered and the handler
    answers with its first draw, whatever the history holds. *)
Lemma play_quiz_id_history (category_is : value -> Question.t -> bool)
      (random : nat -> nat) (fuel : nat) (request : Request) (db : Store)
      (fields category : list (key * value)) (ids : list Z)
      (category_id : value) (q : Question.t) :
  json request = VDict fields ->
  Dict.get_default fields (KStr "previous_questions") VNone
  = VList (map VInt ids) ->
  Dict.get_default fields (KStr "quiz_category") VNone = VDict category ->
  Dict.get category (KStr "id") = Some category_id ->
  choice (if py_eq category_id (VInt 0) then questions db
          else filter (category_is category_id) (questions db))
         (random 0%nat) = Ok q ->
  play_quiz category_is random fuel request db
  = Some (Ok (VDict [ success true;
                      (KStr "question", Question.format q) ]), db).
Proof.
  intros Hbody Hprevious Hcategory Hid Hchoice.
  unfold play_quiz, quiz_setup, bind, lift, py_get, py_getitem,
    Question_query_all, random_question.
  rewrite Hbody, Hprevious, Hcategory, Hid. simpl.
  rewrite Hchoice. simpl.
  destruct fuel; simpl; rewrite if_used_ids; reflexivity.
Qed.

(** C1, on the code.  Question 1 was served before and the pool of three
    is not exhausted, yet a draw of question 1 is returned as it is. *)
Theorem play_quiz_returns_previous_question
        (category_is : value -> Question.t -> bool) (fuel : nat) :
  serve_quiz (play_quiz category_is (fun _ => 0%nat) fuel
                (Fixture.quiz_request [VInt 1] 0) Fixture.trivia)
  = Some ({| status := 200;
             body := Json (VDict [ success true;
                                   (KStr "question",
                                    Question.format Fixture.q1) ]) |},
          Fixture.trivia)
  /\ In (Question.id Fixture.q1) [1]
  /\ List.length [1] <> List.length (questions Fixture.trivia).
Proof.
  split; [|split; [left; reflexivity | discriminate]].
  rewrite (play_quiz_id_history category_is (fun _ => 0%nat) fuel
             (Fixture.quiz_request [VInt 1] 0) Fixture.trivia
             _ _ [1] (VInt 0) Fixture.q1
             eq_refl eq_refl eq_refl eq_refl eq_refl).
  reflexivity.
Qed.

(** C3, on the code.  The history [[1]] covers the pool, which is
    question 1 alone, and the response still carries a [question] field,
    for every draw. *)
Theorem play_quiz_exhausted_pool_returns_question
        (category_is : value -> Question.t -> bool) (random : nat -> nat)
        (fuel : nat) :
  List.length [1] = List.length (questions Fixture.single)
  /\ serve_quiz (play_quiz category_is random fuel
                   (Fixture.quiz_request [VInt 1] 0) Fixture.single)
     = Some ({| status := 200;
                body := Json (VDict [ success true;
                                      (KStr "question",
                                       Question.format Fixture.q1) ]) |},
             Fixture.single).
Proof.
  split; [reflexivity|].
  rewrite (play_quiz_id_history category_is random fuel
             (Fixture.quiz_request [VInt 1] 0) Fixture.single
             _ _ [1] (VInt 0) Fixture.q1
             eq_refl eq_refl eq_refl eq_refl).
  - reflexivity.
  - cbn -[Nat.modulo]. rewrite Nat.mod_1_r. reflexivity.
Qed.

(** The exhaustion answer is reached when the history holds the formatted
    questions themselves. *)
Lemma play_quiz_exhausted_dict_history (random : nat -> nat) :
  serve_quiz (play_quiz Fixture.category_is random 1
                {| args_page := None;
                   json := VDict [ (KStr "previous_questions",
                                    VList [Question.format Fixture.q3]);
                                   (KStr "quiz_category",
                                    VDict [(KStr "id", VInt 2)]) ] |}
                Fixture.trivia)
  = Some ({| status := 200; body := Json (VDict [ success true ]) |},
          Fixture.trivia).
Proof.
  unfold play_quiz, quiz_setup, bind, lift, random_question.
  cbn -[Nat.modulo]. rewrite !Nat.mod_1_r. reflexivity.
Qed.

(** ** Status codes *)

Lemma respond_expected (r : result value) :
  expected r -> In (status (respond r)) [200; 400; 404; 422].
Proof.
  destruct r as [payload|[code|e]]; simpl.
  - intros _. left. reflexivity.
  - intros [Hc | [Hc | Hc]]; subst code; simpl; auto.
  - intros [].
Qed.

Lemma try_except_abort (m : M value) (code : Z) (db : Store) :
  (exists payload, fst (try_except m (abort code) db) = Ok payload)
  \/ fst (try_except m (abort code) db) = Raise (HTTPException code).
Proof.
  unfold try_except. destruct (m db) as [[payload|e] db'].
  - left. exists payload. reflexivity.
  - right. reflexivity.
Qed.

Lemma try_except_expected (m : M value) (code : Z) (db : Store) :
  code = 400 \/ code = 404 \/ code = 422 ->
  expected (fst (try_except m (abort code) db)).
Proof.
  intro Hcode.
  destruct (try_except_abort m code db) as [[payload Hrun] | Hrun];
    rewrite Hrun; simpl; auto.
Qed.

Lemma serve_fst (handler : M value) (db : Store) :
  fst (serve handler db) = respond (fst (handler db)).
Proof.
  unfold serve. destruct (handler db). reflexivity.
Qed.

Section Statuses.

Variable py_str : value -> string.
Variable ilike : string -> string -> bool.
Variable category_is : value -> Question.t -> bool.
Variable Question_insert : value -> value -> value -> value -> M Z.
Variable random : nat -> nat.

(** On a JSON object, every route but the quiz answers 200, 400, 404 or
    422, whatever the store does on insertion. *)
Lemma app_statuses_outside_quiz (fuel : nat) (route : Route)
      (request : Request) (db db' : Store) (fields : list (key * value))
      (response : Response) :
  route <> POST_quizzes ->
  json request = VDict fields ->
  app py_str ilike category_is Question_insert random fuel route request db
  = Some (response, db') ->
  In (status response) [200; 400; 404; 422].
Proof.
  intros Hroute Hbody Happ.
  assert (Hserve : forall handler,
             Some (serve handler db) = Some (response, db') ->
             expected (fst (handler db)) ->
             In (status response) [200; 400; 404; 422]).
  { intros handler Heq Hexp. injection Heq as Heq.
    apply (f_equal fst) in Heq. rewrite serve_fst in Heq. simpl in Heq.
    rewrite <- Heq. apply respond_expected. exact Hexp. }
  destruct route; simpl in Happ; try congruence;
    apply (Hserve _ Happ); clear Hserve Happ.
  - unfold retrieve_categories, bind, Category_query_all.
    destruct (Z.of_nat (List.length (categories db)) =? 0); simpl; auto.
  - rewrite retrieve_questions_run.
    destruct (paginate_questions request (questions db)); simpl; auto.
  - apply try_except_expected. auto.
  - unfold create_question, bind, lift, py_get. rewrite Hbody.
    apply try_except_expected. auto.
  - unfold search_questions, bind, lift, py_get. rewrite Hbody.
    apply try_except_expected. auto.
  - apply try_except_expected. auto.
Qed.

(** C4, on the code.  POST /quizzes on a store without questions: the
    pool is empty, [random.choice] raises [IndexError], no handler is
    registered for it, and the response is Flask's 500 page. *)
Theorem play_quiz_empty_pool_is_500 (fuel : nat) :
  app py_str ilike category_is Question_insert random fuel POST_quizzes
      (Fixture.quiz_request [] 0) Fixture.no_questions
  = Some ({| status := 500; body := DefaultErrorPage |},
          Fixture.no_questions)
  /\ ~ In 500 [200; 400; 404; 422].
Proof.
  split.
  - reflexivity.
  - simpl. intros [H|[H|[H|[H|[]]]]]; discriminate.
Qed.

End Statuses.

(** * Further properties of the handlers *)

Open Scope list_scope.

(** ** Dicts *)

Lemma key_eqb_refl (k : key) : key_eqb k k = true.
Proof. apply key_eqb_eq. reflexivity. Qed.

Lemma key_eqb_neq (a b : key) : a <> b -> key_eqb a b = false.
Proof.
  intro Hneq. destruct (key_eqb a b) eqn:Heq; [|reflexivity].
  apply key_eqb_eq in Heq. contradiction.
Qed.

Lemma dict_get_set_same (d : list (key * value)) (k : key) (v : value) :
  Dict.get (Dict.set d k v) k = Some v.
Proof.
  induction d as [|[k' v'] d IH]; simpl.
  - rewrite key_eqb_refl. reflexivity.
  - destruct (key_eqb k' k) eqn:Heq; simpl; rewrite Heq; [reflexivity|].
    exact IH.
Qed.

Lemma dict_get_set_other (d : list (key * value)) (k k' : key) (v : value) :
  k <> k' -> Dict.get (Dict.set d k v) k' = Dict.get d k'.
Proof.
  intro Hneq. induction d as [|[k0 v0] d IH]; simpl.
  - rewrite (key_eqb_neq k k' Hneq). reflexivity.
  - destruct (key_eqb k0 k) eqn:Heq; simpl.
    + apply key_eqb_eq in Heq. subst k0.
      rewrite (key_eqb_neq k k' Hneq). reflexivity.
    + destruct (key_eqb k0 k'); [reflexivity | exact IH].
Qed.

Lemma dict_set_keys (d : list (key * value)) (k k' : key) (v : value) :
  In k' (map fst (Dict.set d k v)) <-> k' = k \/ In k' (map fst d).
Proof.
  induction d as [|[k0 v0] d IH]; simpl.
  - intuition.
  - destruct (key_eqb k0 k) eqn:Heq; simpl.
    + apply key_eqb_eq in Heq. subst k0. intuition.
    + rewrite IH. intuition.
Qed.

Lemma dict_set_nodup (d : list (key * value)) (k : key) (v : value) :
  NoDup (map fst d) -> NoDup (map fst (Dict.set d k v)).
Proof.
  induction d as [|[k0 v0] d IH]; simpl; intro Hnodup.
  - constructor; [intros [] | constructor].
  - inversion Hnodup as [|? ? Hnotin Hrest]; subst.
    destruct (key_eqb k0 k) eqn:Heq; simpl.
    + constructor; assumption.
    + constructor; [|apply IH; exact Hrest].
      rewrite dict_set_keys. intros [Hk|Hin]; [|contradiction].
      subst k0. rewrite key_eqb_refl in Heq. discriminate.
Qed.

Lemma find_app {A} (f : A -> bool) (l1 l2 : list A) :
  find f (l1 ++ l2) =
    match find f l1 with Some a => Some a | None => find f l2 end.
Proof.
  induction l1 as [|a l1 IH]; simpl; [reflexivity|].
  destruct (f a); [reflexivity | exact IH].
Qed.

(** ** Categories *)

Lemma categories_fold_get (categories : list Category.t)
      (d : list (key * value)) (i : Z) :
  Dict.get
    (fold_left
       (fun d category =>
          Dict.set d (KInt (Category.id category))
                   (VStr (Category.type category)))
       categories d)
    (KInt i)
  = match last_category i categories with
    | Some c => Some (VStr (Category.type c))
    | None => Dict.get d (KInt i)
    end.
Proof.
  unfold last_category. revert d.
  induction categories as [|c categories IH]; intro d; simpl.
  - reflexivity.
  - rewrite IH, find_app. simpl.
    destruct (find (fun c0 => Category.id c0 =? i) (rev categories));
      [reflexivity|].
    destruct (Z.eqb_spec (Category.id c) i) as [Heq|Hneq].
    + rewrite Heq. apply dict_get_set_same.
    + apply dict_get_set_other. intro Hk. injection Hk as Hk.
      contradiction.
Qed.

Lemma categories_fold_nodup (categories : list Category.t)
      (d : list (key * value)) :
  NoDup (map fst d) ->
  NoDup (map fst
           (fold_left
              (fun d category =>
                 Dict.set d (KInt (Category.id category))
                          (VStr (Category.type category)))
              categories d)).
Proof.
  revert d. induction categories as [|c categories IH]; intros d Hd; simpl.
  - exact Hd.
  - apply IH. apply dict_set_nodup. exact Hd.
Qed.

(** X1.  GET /categories on a store with at least one category answers
    200 with a mapping that has one entry per category id, the type
    being the one of the last row with that id, and no entry for an id
    no row has.  The store is unchanged. *)
Theorem retrieve_categories_mapping (db : Store) :
  categories db <> [] ->
  serve retrieve_categories db
  = (ok (VDict [ success true;
                 (KStr "categories",
                  VDict (categories_dict (categories db))) ]), db)
  /\ NoDup (map fst (categories_dict (categories db)))
  /\ forall i,
      Dict.get (categories_dict (categories db)) (KInt i)
      = match last_category i (categories db) with
        | Some c => Some (VStr (Category.type c))
        | None => None
        end.
Proof.
  intro Hsome. split; [|split].
  - unfold serve, retrieve_categories, bind, Category_query_all.
    destruct (categories db) as [|c cs]; [congruence | reflexivity].
  - apply categories_fold_nodup. constructor.
  - intro i. unfold categories_dict. rewrite categories_fold_get.
    reflexivity.
Qed.

Lemma retrieve_categories_mapping_witness :
  serve retrieve_categories Fixture.trivia
  = (ok (VDict [ success true;
                 (KStr "categories",
                  VDict [ (KInt 1, VStr "Science");
                          (KInt 2, VStr "Art") ]) ]), Fixture.trivia).
Proof.
  apply (retrieve_categories_mapping Fixture.trivia). discriminate.
Defined.

(** ** Listing, with the mapping *)

(** C7.  GET /questions answers 404, with the body of the 404 handler,
    when the computed page is empty, which covers a store without
    questions and a page beyond the data; otherwise it answers 200 with
    the page, the count of all questions and the categories mapping,
    which has one entry per category id, of the type of the last row
    with that id.  The store is not changed. *)
Theorem retrieve_questions_response (request : Request) (db : Store) :
  let page := paginate_questions request (questions db) in
  (page = [] ->
   serve (retrieve_questions request) db
   = ({| status := 404;
         body := Json (VDict [ (KStr "success", VBool false);
                               (KStr "error", VInt 404);
                               (KStr "message",
                                VStr "resource not found") ]) |}, db))
  /\ (page <> [] ->
      serve (retrieve_questions request) db
      = ({| status := 200;
            body := Json (VDict
                            [ (KStr "success", VBool true);
                              (KStr "questions", VList page);
                              (KStr "total_questions",
                               VInt (Z.of_nat (List.length (questions db))));
                              (KStr "categories",
                               VDict (categories_dict (categories db))) ]) |},
         db))
  /\ NoDup (map fst (categories_dict (categories db)))
  /\ (forall i,
        Dict.get (categories_dict (categories db)) (KInt i)
        = match last_category i (categories db) with
          | Some c => Some (VStr (Category.type c))
          | None => None
          end)
  /\ (questions db = [] -> page = [])
  /\ (1 <= requested_page request ->
      Z.of_nat (List.length (questions db))
      <= (requested_page request - 1) * 10 ->
      page = []).
Proof.
  intro page. unfold serve. rewrite retrieve_questions_run. fold page.
  split; [|split; [|split; [|split; [|split]]]].
  - intros ->. reflexivity.
  - intro Hpage. destruct page; [congruence | reflexivity].
  - apply categories_fold_nodup. constructor.
  - intro i. unfold categories_dict. rewrite categories_fold_get.
    reflexivity.
  - intro Hnone. subst page. rewrite Hnone.
    apply paginate_questions_nothing.
  - intros Hp Hbeyond. apply paginate_questions_beyond; assumption.
Qed.

Lemma retrieve_questions_response_witness :
  serve (retrieve_questions Fixture.get_request) Fixture.no_questions
  = ({| status := 404;
        body := Json (VDict [ (KStr "success", VBool false);
                              (KStr "error", VInt 404);
                              (KStr "message",
                               VStr "resource not found") ]) |},
     Fixture.no_questions)
  /\ serve (retrieve_questions (Fixture.page_request 2)) Fixture.trivia
     = ({| status := 404;
           body := Json (VDict [ (KStr "success", VBool false);
                                 (KStr "error", VInt 404);
                                 (KStr "message",
                                  VStr "resource not found") ]) |},
        Fixture.trivia)
  /\ serve (retrieve_questions Fixture.get_request) Fixture.trivia
     = ({| status := 200;
           body := Json (VDict
                           [ (KStr "success", VBool true);
                             (KStr "questions",
                              VList [ Question.format Fixture.q1;
                                      Question.format Fixture.q2;
                                      Question.format Fixture.q3 ]);
                             (KStr "total_questions", VInt 3);
                             (KStr "categories",
                              VDict [ (KInt 1, VStr "Science");
                                      (KInt 2, VStr "Art") ]) ]) |},
        Fixture.trivia).
Proof.
  split; [|split].
  - destruct (retrieve_questions_response Fixture.get_request
                Fixture.no_questions) as (Hempty & _).
    apply Hempty. reflexivity.
  - destruct (retrieve_questions_response (Fixture.page_request 2)
                Fixture.trivia) as (Hempty & _).
    apply Hempty. reflexivity.
  - destruct (retrieve_questions_response Fixture.get_request
                Fixture.trivia) as (_ & Hpage & _).
    apply Hpage. discriminate.
Defined.

(** C10.  With no category in the store, GET /questions on a non-empty
    page still answers 200, with an empty categories mapping, while
    GET /categories answers 404 with the body of the 404 handler. *)
Theorem retrieve_questions_without_categories (request : Request)
        (db : Store) :
  categories db = [] ->
  paginate_questions request (questions db) <> [] ->
  serve (retrieve_questions request) db =
    ({| status := 200;
        body := Json (VDict [ success true;
                              (KStr "questions",
                               VList (paginate_questions request
                                        (questions db)));
                              (KStr "total_questions",
                               VInt (Z.of_nat (List.length (questions db))));
                              (KStr "categories", VDict []) ]) |},
     db)
  /\ serve retrieve_categories db
     = ({| status := 404;
           body := Json (VDict [ (KStr "success", VBool false);
                                 (KStr "error", VInt 404);
                                 (KStr "message",
                                  VStr "resource not found") ]) |}, db).
Proof.
  intros Hnone Hpage. split.
  - unfold serve. rewrite retrieve_questions_run.
    destruct (paginate_questions request (questions db)) as [|q page];
      [congruence|].
    unfold questions_payload. rewrite Hnone. reflexivity.
  - unfold serve, retrieve_categories, bind, Category_query_all.
    rewrite Hnone. reflexivity.
Qed.

Lemma retrieve_questions_without_categories_witness :
  serve (retrieve_questions Fixture.get_request) Fixture.no_categories =
    ({| status := 200;
        body := Json (VDict [ success true;
                              (KStr "questions",
                               VList (map Question.format
                                          (questions Fixture.no_categories)));
                              (KStr "total_questions", VInt 3);
                              (KStr "categories", VDict []) ]) |},
     Fixture.no_categories)
  /\ serve retrieve_categories Fixture.no_categories
     = ({| status := 404;
           body := Json (VDict [ (KStr "success", VBool false);
                                 (KStr "error", VInt 404);
                                 (KStr "message",
                                  VStr "resource not found") ]) |},
        Fixture.no_categories).
Proof.
  apply (retrieve_questions_without_categories Fixture.get_request
                                               Fixture.no_categories).
  - reflexivity.
  - discriminate.
Defined.

(** ** Pages *)

Lemma firstn_add_skipn {A} (a b : nat) (l : list A) :
  firstn (a + b) l = firstn a l ++ firstn b (skipn a l).
Proof.
  revert l. induction a as [|a IH]; intro l; simpl; [reflexivity|].
  destruct l as [|x l]; simpl.
  - rewrite firstn_nil. reflexivity.
  - rewrite IH. reflexivity.
Qed.

Lemma py_slice_contiguous {A} (l : list A) (start stop : Z) :
  exists before after, l = before ++ py_slice l start stop ++ after.
Proof.
  unfold py_slice.
  set (lo := Z.to_nat (slice_index (Z.of_nat (List.length l)) start)).
  set (n := Z.to_nat (slice_index (Z.of_nat (List.length l)) stop
                      - slice_index (Z.of_nat (List.length l)) start)).
  exists (firstn lo l), (skipn n (skipn lo l)).
  rewrite firstn_skipn, firstn_skipn. reflexivity.
Qed.

(** X2.  For every page number, negative ones included, a page holds at
    most [QUESTIONS_PER_PAGE] items, and they are a contiguous run of
    the formatted selection, in its order. *)
Theorem paginate_questions_bounded (request : Request)
        (selection : list Question.t) :
  Z.of_nat (List.length (paginate_questions request selection))
  <= QUESTIONS_PER_PAGE
  /\ exists before after,
      map Question.format selection
      = before ++ paginate_questions request selection ++ after.
Proof.
  split.
  - rewrite paginate_questions_length.
    pose proof (Nat2Z.is_nonneg (List.length selection)) as Hlen.
    unfold slice_index, QUESTIONS_PER_PAGE.
    destruct (Z.ltb_spec ((requested_page request - 1) * 10 + 10) 0);
      destruct (Z.ltb_spec ((requested_page request - 1) * 10) 0); lia.
  - unfold paginate_questions. cbv zeta. apply py_slice_contiguous.
Qed.

Lemma first_pages_firstn (n : nat) (selection : list Question.t) :
  first_pages n selection
  = firstn (10 * n) (map Question.format selection).
Proof.
  unfold first_pages. induction n as [|n IH].
  - reflexivity.
  - rewrite seq_S, flat_map_app, IH. cbn [flat_map]. rewrite app_nil_r.
    unfold paginate_questions. cbv zeta.
    unfold requested_page, Fixture.page_request, QUESTIONS_PER_PAGE.
    cbn [args_page].
    assert (Hp : Z.of_nat (1 + n) = Z.of_nat n + 1) by lia.
    rewrite Hp. clear Hp.
    rewrite py_slice_front by lia. unfold half_open_slice.
    replace (Z.to_nat ((Z.of_nat n + 1 - 1) * 10)) with (10 * n)%nat
      by lia.
    replace (Z.to_nat ((Z.of_nat n + 1 - 1) * 10 + 10) - 10 * n)%nat
      with 10%nat by lia.
    replace (10 * S n)%nat with (10 * n + 10)%nat by lia.
    symmetry. apply firstn_add_skipn.
Qed.

(** X3.  The pages [1 .. n] put one after the other give back the whole
    formatted selection, once [n] pages are enough to hold it: no
    question is lost or repeated between pages. *)
Theorem first_pages_cover (n : nat) (selection : list Question.t) :
  (List.length selection <= 10 * n)%nat ->
  first_pages n selection = map Question.format selection.
Proof.
  intro Henough. rewrite first_pages_firstn.
  apply firstn_all2. rewrite length_map. exact Henough.
Qed.

Lemma first_pages_cover_witness :
  first_pages 3 (Fixture.numbered 25)
  = map Question.format (Fixture.numbered 25).
Proof.
  apply (first_pages_cover 3 (Fixture.numbered 25)). vm_compute.
  repeat constructor.
Defined.

Lemma paginate_questions_In (request : Request)
      (selection : list Question.t) (v : value) :
  In v (paginate_questions request selection) ->
  In v (map Question.format selection).
Proof.
  intro Hin.
  destruct (py_slice_contiguous (map Question.format selection)
              ((requested_page request - 1) * QUESTIONS_PER_PAGE)
              ((requested_page request - 1) * QUESTIONS_PER_PAGE
               + QUESTIONS_PER_PAGE)) as (before & after & Hsplit).
  rewrite Hsplit. apply in_or_app. right. apply in_or_app. left.
  exact Hin.
Qed.

(** ** Deletion *)

Lemma delete_question_run (request : Request) (question_id : Z)
      (db : Store) :
  delete_question request question_id db
  = match filter (fun q => Question.id q =? question_id) (questions db) with
    | [q] =>
        (Ok (listing_payload
               [ (KStr "deleted", VInt question_id) ]
               (paginate_questions request
                  (questions (without (Question.id q) db)))
               (List.length (questions (without (Question.id q) db)))),
         without (Question.id q) db)
    | _ => (Raise (HTTPException 422), db)
    end.
Proof.
  unfold delete_question, try_except, bind, Question_query_all.
  destruct (filter (fun q => Question.id q =? question_id) (questions db))
    as [|q [|q' rows]]; reflexivity.
Qed.

Lemma filter_singleton_id (question_id : Z) (rows : list Question.t)
      (q : Question.t) :
  filter (fun r => Question.id r =? question_id) rows = [q] ->
  Question.id q = question_id.
Proof.
  intro Hfound.
  assert (Hin : In q (filter (fun r => Question.id r =? question_id) rows))
    by (rewrite Hfound; left; reflexivity).
  apply filter_In in Hin. destruct Hin as [_ Heq].
  apply Z.eqb_eq. exact Heq.
Qed.

(** X4.  DELETE /questions/{id} when exactly one question has the id
    answers 200 with the id and the first page and count of what is
    left; the store loses that question and nothing else, and keeps the
    order of the others. *)
Theorem delete_question_found (request : Request) (question_id : Z)
        (db : Store) (q : Question.t) :
  filter (fun r => Question.id r =? question_id) (questions db) = [q] ->
  serve (delete_question request question_id) db
  = (ok (listing_payload
           [ (KStr "deleted", VInt question_id) ]
           (paginate_questions request
              (questions (without question_id db)))
           (List.length (questions (without question_id db)))),
     without question_id db)
  /\ S (List.length (questions (without question_id db)))
     = List.length (questions db)
  /\ forall r, In r (questions (without question_id db))
               <-> In r (questions db) /\ Question.id r <> question_id.
Proof.
  intro Hfound. split; [|split].
  - unfold serve. rewrite delete_question_run, Hfound.
    rewrite (filter_singleton_id question_id (questions db) q Hfound).
    reflexivity.
  - pose proof (filter_length (fun r => Question.id r =? question_id)
                              (questions db)) as Hlen.
    rewrite Hfound in Hlen. simpl in Hlen. simpl. lia.
  - intro r. simpl. rewrite filter_In.
    destruct (Z.eqb_spec (Question.id r) question_id); simpl;
      intuition congruence.
Qed.

Lemma delete_question_found_witness :
  serve (delete_question Fixture.get_request 2) Fixture.trivia
  = (ok (listing_payload
           [ (KStr "deleted", VInt 2) ]
           [ Question.format Fixture.q1; Question.format Fixture.q3 ] 2),
     {| questions := [Fixture.q1; Fixture.q3];
        categories := categories Fixture.trivia |}).
Proof.
  apply (delete_question_found Fixture.get_request 2 Fixture.trivia
                                 Fixture.q2).
  reflexivity.
Defined.

(** X5.  DELETE /questions/{id} answers 200 or 422 and nothing else, 404
    included; it answers 200 only when exactly one question has the id,
    and with 422 the store is unchanged. *)
Theorem delete_question_200_or_422 (request : Request) (question_id : Z)
        (db : Store) :
  (fst (serve (delete_question request question_id) db) = unprocessable
   /\ snd (serve (delete_question request question_id) db) = db)
  \/ (status (fst (serve (delete_question request question_id) db)) = 200
      /\ exists q,
          filter (fun r => Question.id r =? question_id) (questions db)
          = [q]).
Proof.
  unfold serve. rewrite delete_question_run.
  destruct (filter (fun q => Question.id q =? question_id) (questions db))
    as [|q [|q' rows]]; simpl.
  - left. split; reflexivity.
  - right. split; [reflexivity|]. exists q. reflexivity.
  - left. split; reflexivity.
Qed.

(** X6.  Once a question is deleted, deleting the same id again answers
    422 and changes nothing. *)
Theorem delete_question_twice (request again : Request) (question_id : Z)
        (db : Store) (q : Question.t) :
  filter (fun r => Question.id r =? question_id) (questions db) = [q] ->
  serve (delete_question again question_id)
        (snd (serve (delete_question request question_id) db))
  = (unprocessable, snd (serve (delete_question request question_id) db)).
Proof.
  intro Hfound. unfold serve at 2 3. rewrite delete_question_run, Hfound.
  rewrite (filter_singleton_id question_id (questions db) q Hfound).
  cbn [snd].
  apply (delete_question_absent again question_id (without question_id db)).
  intros r Hin. simpl in Hin. apply filter_In in Hin.
  destruct Hin as [_ Hneq].
  destruct (Z.eqb_spec (Question.id r) question_id); [discriminate|].
  assumption.
Qed.

Lemma delete_question_twice_witness :
  serve (delete_question Fixture.get_request 2)
        (snd (serve (delete_question Fixture.get_request 2) Fixture.trivia))
  = (unprocessable,
     snd (serve (delete_question Fixture.get_request 2) Fixture.trivia)).
Proof.
  apply (delete_question_twice Fixture.get_request Fixture.get_request 2
                               Fixture.trivia Fixture.q2).
  reflexivity.
Defined.

Lemma format_id (a b : Question.t) :
  Question.format a = Question.format b -> Question.id a = Question.id b.
Proof.
  unfold Question.format. intro Heq. injection Heq. intros. assumption.
Qed.

(** X7.  After a question is deleted, no page of GET /questions, for any
    page number, shows a question with its id. *)
Theorem deleted_question_not_listed (request listing : Request)
        (question_id : Z) (db : Store) (q r : Question.t) :
  filter (fun r => Question.id r =? question_id) (questions db) = [q] ->
  In (Question.format r)
     (paginate_questions listing
        (questions (snd (serve (delete_question request question_id) db))))
  ->
  Question.id r <> question_id.
Proof.
  intros Hfound Hlisted. unfold serve in Hlisted.
  rewrite delete_question_run, Hfound in Hlisted.
  rewrite (filter_singleton_id question_id (questions db) q Hfound)
    in Hlisted.
  cbn [snd] in Hlisted.
  apply paginate_questions_In in Hlisted. apply in_map_iff in Hlisted.
  destruct Hlisted as (r' & Hformat & Hin).
  rewrite <- (format_id r' r Hformat).
  simpl in Hin. apply filter_In in Hin. destruct Hin as [_ Hneq].
  destruct (Z.eqb_spec (Question.id r') question_id); [discriminate|].
  assumption.
Qed.

Lemma deleted_question_not_listed_witness :
  Question.id Fixture.q3 <> 2.
Proof.
  apply (deleted_question_not_listed Fixture.get_request
           Fixture.get_request 2 Fixture.trivia Fixture.q2 Fixture.q3).
  - reflexivity.
  - right. left. reflexivity.
Defined.

(** ** Creation *)

Lemma insert_by_id_permutation (q : Question.t) (l : list Question.t) :
  Permutation (insert_by_id q l) (q :: l).
Proof.
  induction l as [|r l IH]; simpl.
  - apply Permutation_refl.
  - destruct (Question.id q <=? Question.id r).
    + apply Permutation_refl.
    + apply perm_trans with (r :: q :: l).
      * apply perm_skip. exact IH.
      * apply perm_swap.
Qed.

Lemma insert_by_id_sorted (q : Question.t) (l : list Question.t) :
  Sorted id_le l -> Sorted id_le (insert_by_id q l).
Proof.
  induction l as [|r l IH]; simpl; intro Hsorted.
  - repeat constructor.
  - destruct (Z.leb_spec (Question.id q) (Question.id r)) as [Hle|Hgt].
    + constructor; [exact Hsorted|]. constructor. exact Hle.
    + inversion Hsorted as [|? ? Hrest Hhead]; subst.
      constructor; [apply IH; exact Hrest|].
      destruct l as [|r' l]; simpl.
      * constructor. unfold id_le. lia.
      * destruct (Question.id q <=? Question.id r').
        -- constructor. unfold id_le. lia.
        -- inversion Hhead; subst. constructor. assumption.
Qed.

Lemma order_by_id_permutation (l : list Question.t) :
  Permutation (order_by_id l) l.
Proof.
  unfold order_by_id. induction l as [|q l IH]; simpl.
  - apply Permutation_refl.
  - apply perm_trans with (q :: fold_right insert_by_id [] l).
    + apply insert_by_id_permutation.
    + apply perm_skip. exact IH.
Qed.

Lemma order_by_id_sorted (l : list Question.t) :
  Sorted id_le (order_by_id l).
Proof.
  unfold order_by_id. induction l as [|q l IH]; simpl.
  - constructor.
  - apply insert_by_id_sorted. exact IH.
Qed.

Section Creation.

Variable py_str : value -> string.
Variable ilike : string -> string -> bool.
Variable Question_insert : value -> value -> value -> value -> M Z.

Lemma create_question_run (request : Request) (db : Store)
      (fields : list (key * value)) :
  json request = VDict fields ->
  truthy (Dict.get_default fields (KStr "search") VNone) = false ->
  is_none (Dict.get_default fields (KStr "question") VNone) = false ->
  is_none (Dict.get_default fields (KStr "answer") VNone) = false ->
  is_none (Dict.get_default fields (KStr "category") VNone) = false ->
  is_none (Dict.get_default fields (KStr "difficulty") VNone) = false ->
  create_question py_str ilike Question_insert request db
  = match Question_insert
            (Dict.get_default fields (KStr "question") VNone)
            (Dict.get_default fields (KStr "answer") VNone)
            (Dict.get_default fields (KStr "category") VNone)
            (Dict.get_default fields (KStr "difficulty") VNone) db with
    | (Ok question_id, db') =>
        (Ok (listing_payload
               [ (KStr "created", VInt question_id) ]
               (paginate_questions request (order_by_id (questions db')))
               (List.length (order_by_id (questions db')))), db')
    | (Raise _, db') => (Raise (HTTPException 422), db')
    end.
Proof.
  intros Hbody Hsearch Hq Ha Hc Hd.
  unfold create_question, try_except, bind, lift, py_get.
  rewrite Hbody, Hsearch, Hq, Ha, Hc, Hd. simpl.
  destruct (Question_insert _ _ _ _ db) as [[question_id|e] db'];
    reflexivity.
Qed.

(** X8.  POST /questions with the four fields and no truthy [search],
    when the store accepts the row: the answer is 200 with the id the
    store gave, the count of all questions of the store as it is after
    the insertion, and the page of a listing that holds exactly those
    questions in ascending order of id. *)
Theorem create_question_inserted (request : Request) (db db' : Store)
        (fields : list (key * value)) (question_id : Z) :
  json request = VDict fields ->
  truthy (Dict.get_default fields (KStr "search") VNone) = false ->
  is_none (Dict.get_default fields (KStr "question") VNone) = false ->
  is_none (Dict.get_default fields (KStr "answer") VNone) = false ->
  is_none (Dict.get_default fields (KStr "category") VNone) = false ->
  is_none (Dict.get_default fields (KStr "difficulty") VNone) = false ->
  Question_insert (Dict.get_default fields (KStr "question") VNone)
                  (Dict.get_default fields (KStr "answer") VNone)
                  (Dict.get_default fields (KStr "category") VNone)
                  (Dict.get_default fields (KStr "difficulty") VNone) db
  = (Ok question_id, db') ->
  exists selection,
    serve (create_question py_str ilike Question_insert request) db
    = (ok (listing_payload [ (KStr "created", VInt question_id) ]
             (paginate_questions request selection)
             (List.length (questions db'))), db')
    /\ Permutation selection (questions db')
    /\ Sorted id_le selection.
Proof.
  intros Hbody Hsearch Hq Ha Hc Hd Hinsert.
  exists (order_by_id (questions db')). split; [|split].
  - unfold serve.
    rewrite (create_question_run request db fields Hbody Hsearch Hq Ha Hc Hd).
    rewrite Hinsert.
    rewrite (Permutation_length (order_by_id_permutation (questions db'))).
    reflexivity.
  - apply order_by_id_permutation.
  - apply order_by_id_sorted.
Qed.

(** X9.  POST /questions with the four fields and no truthy [search],
    when the store raises on the insertion: the answer is 422, whatever
    the exception, and the store is as the failed insertion left it. *)
Theorem create_question_rejected (request : Request) (db db' : Store)
        (fields : list (key * value)) (e : exn) :
  json request = VDict fields ->
  truthy (Dict.get_default fields (KStr "search") VNone) = false ->
  is_none (Dict.get_default fields (KStr "question") VNone) = false ->
  is_none (Dict.get_default fields (KStr "answer") VNone) = false ->
  is_none (Dict.get_default fields (KStr "category") VNone) = false ->
  is_none (Dict.get_default fields (KStr "difficulty") VNone) = false ->
  Question_insert (Dict.get_default fields (KStr "question") VNone)
                  (Dict.get_default fields (KStr "answer") VNone)
                  (Dict.get_default fields (KStr "category") VNone)
                  (Dict.get_default fields (KStr "difficulty") VNone) db
  = (Raise e, db') ->
  serve (create_question py_str ilike Question_insert request) db
  = (unprocessable, db').
Proof.
  intros Hbody Hsearch Hq Ha Hc Hd Hinsert. unfold serve.
  rewrite (create_question_run request db fields Hbody Hsearch Hq Ha Hc Hd).
  rewrite Hinsert. reflexivity.
Qed.

End Creation.

Lemma create_question_inserted_witness :
  exists selection,
    serve (create_question Fixture.str Fixture.ilike Fixture.insert
             (Fixture.post_request
                [ (KStr "question", VStr "Who wrote Dracula?");
                  (KStr "answer", VStr "Bram Stoker");
                  (KStr "category", VInt 2);
                  (KStr "difficulty", VInt 3) ]))
          Fixture.trivia
    = (ok (listing_payload [ (KStr "created", VInt 4) ]
             (paginate_questions
                (Fixture.post_request
                   [ (KStr "question", VStr "Who wrote Dracula?");
                     (KStr "answer", VStr "Bram Stoker");
                     (KStr "category", VInt 2);
                     (KStr "difficulty", VInt 3) ])
                selection)
             4),
       snd (Fixture.insert (VStr "Who wrote Dracula?") (VStr "Bram Stoker")
                           (VInt 2) (VInt 3) Fixture.trivia))
    /\ Permutation selection
         (questions
            (snd (Fixture.insert (VStr "Who wrote Dracula?")
                                 (VStr "Bram Stoker") (VInt 2) (VInt 3)
                                 Fixture.trivia)))
    /\ Sorted id_le selection.
Proof.
  apply (create_question_inserted Fixture.str Fixture.ilike Fixture.insert
           (Fixture.post_request
              [ (KStr "question", VStr "Who wrote Dracula?");
                (KStr "answer", VStr "Bram Stoker");
                (KStr "category", VInt 2);
                (KStr "difficulty", VInt 3) ])
           Fixture.trivia
           (snd (Fixture.insert (VStr "Who wrote Dracula?")
                                (VStr "Bram Stoker") (VInt 2) (VInt 3)
                                Fixture.trivia))
           [ (KStr "question", VStr "Who wrote Dracula?");
             (KStr "answer", VStr "Bram Stoker");
             (KStr "category", VInt 2);
             (KStr "difficulty", VInt 3) ] 4);
    reflexivity.
Defined.

Lemma create_question_rejected_witness :
  serve (create_question Fixture.str Fixture.ilike Fixture.insert
           (Fixture.post_request
              [ (KStr "question", VStr "Who wrote Dracula?");
                (KStr "answer", VStr "Bram Stoker");
                (KStr "category", VStr "Art");
                (KStr "difficulty", VInt 3) ]))
        Fixture.trivia
  = (unprocessable, Fixture.trivia).
Proof.
  apply (create_question_rejected Fixture.str Fixture.ilike Fixture.insert
           (Fixture.post_request
              [ (KStr "question", VStr "Who wrote Dracula?");
                (KStr "answer", VStr "Bram Stoker");
                (KStr "category", VStr "Art");
                (KStr "difficulty", VInt 3) ])
           Fixture.trivia Fixture.trivia
           [ (KStr "question", VStr "Who wrote Dracula?");
             (KStr "answer", VStr "Bram Stoker");
             (KStr "category", VStr "Art");
             (KStr "difficulty", VInt 3) ]
           (PyException IntegrityError));
    reflexivity.
Defined.

(** ** The search endpoint *)

Section Search.

Variable py_str : value -> string.
Variable ilike : string -> string -> bool.

(** X10.  POST /questions/search with a JSON object whose [searchTerm]
    is missing, null or otherwise falsy answers 404: [selection] is read
    unbound and the [except] turns the error into [abort(404)].  The
    store is unchanged. *)
Theorem search_questions_without_term (request : Request) (db : Store)
        (fields : list (key * value)) :
  json request = VDict fields ->
  truthy (Dict.get_default fields (KStr "searchTerm") VNone) = false ->
  serve (search_questions py_str ilike request) db
  = ({| status := 404;
        body := Json (VDict [ (KStr "success", VBool false);
                              (KStr "error", VInt 404);
                              (KStr "message",
                               VStr "resource not found") ]) |}, db).
Proof.
  intros Hbody Hterm.
  unfold serve, search_questions, try_except, bind, lift, py_get.
  rewrite Hbody, Hterm. reflexivity.
Qed.

(** X11.  POST /questions/search with a truthy [searchTerm] answers 200
    with the page of the questions the store matches against
    [%searchTerm%], and [total_questions] is the number of matches, at
    most the number of questions in the store. *)
Theorem search_questions_matches (request : Request) (db : Store)
        (fields : list (key * value)) (search : value) :
  json request = VDict fields ->
  Dict.get_default fields (KStr "searchTerm") VNone = search ->
  truthy search = true ->
  let matches :=
    filter (fun q => ilike ("%" ++ py_str search ++ "%")%string
                           (Question.question q))
           (questions db) in
  serve (search_questions py_str ilike request) db
  = (ok (listing_payload [] (paginate_questions request matches)
                         (List.length matches)), db)
  /\ (List.length matches <= List.length (questions db))%nat.
Proof.
  intros Hbody Hget Hterm matches. split.
  - unfold serve, search_questions, try_except, bind, lift, py_get.
    rewrite Hbody, Hget, Hterm. reflexivity.
  - apply filter_length_le.
Qed.

End Search.

Lemma search_questions_without_term_witness :
  serve (search_questions Fixture.str Fixture.ilike
           (Fixture.post_request [ (KStr "searchTerm", VStr "") ]))
        Fixture.trivia
  = ({| status := 404;
        body := Json (VDict [ (KStr "success", VBool false);
                              (KStr "error", VInt 404);
                              (KStr "message",
                               VStr "resource not found") ]) |},
     Fixture.trivia).
Proof.
  apply (search_questions_without_term Fixture.str Fixture.ilike
           (Fixture.post_request [ (KStr "searchTerm", VStr "") ])
           Fixture.trivia [ (KStr "searchTerm", VStr "") ]);
    reflexivity.
Defined.

Lemma search_questions_matches_witness :
  serve (search_questions Fixture.str Fixture.ilike
           (Fixture.post_request [ (KStr "searchTerm", VStr "who") ]))
        Fixture.trivia
  = (ok (listing_payload []
           [ Question.format Fixture.q2; Question.format Fixture.q3 ] 2),
     Fixture.trivia)
  /\ (2 <= 3)%nat.
Proof.
  apply (search_questions_matches Fixture.str Fixture.ilike
           (Fixture.post_request [ (KStr "searchTerm", VStr "who") ])
           Fixture.trivia [ (KStr "searchTerm", VStr "who") ] (VStr "who"));
    reflexivity.
Defined.

(** ** Questions of a category *)

(** X12.  GET /categories/{id}/questions, as long as the store answers
    the query, answers 200 and leaves the store unchanged.  It lists every question of the store that the
    category filter keeps, and only those, without pagination:
    [total_questions] is the number of listed questions, also beyond
    ten.  The filter is asked for the id as text. *)
Theorem retrieve_questions_by_category_lists_all
        (py_str : value -> string)
        (category_is : value -> Question.t -> bool)
        (category_id : Z) (db : Store) :
  exists matches,
    serve (retrieve_questions_by_category py_str category_is category_id)
          db
    = (ok (VDict [ success true;
                   (KStr "questions",
                    VList (map Question.format matches));
                   (KStr "total_questions",
                    VInt (Z.of_nat
                            (List.length (map Question.format matches))));
                   (KStr "current_category", VInt category_id) ]), db)
    /\ forall q,
        In q matches
        <-> In q (questions db)
            /\ category_is (VStr (py_str (VInt category_id))) q = true.
Proof.
  exists (filter (category_is (VStr (py_str (VInt category_id))))
                 (questions db)).
  split.
  - rewrite length_map. reflexivity.
  - intro q. apply filter_In.
Qed.

(** ** The quiz, further *)

Lemma choice_In {A} (seq : list A) (r : nat) (a : A) :
  choice seq r = Ok a -> In a seq.
Proof.
  unfold choice. destruct seq as [|x seq]; [discriminate|].
  intro Heq.
  replace a with (nth (r mod List.length (x :: seq)) (x :: seq) x)
    by congruence.
  apply nth_In. apply Nat.mod_upper_bound. discriminate.
Qed.

Lemma py_eq_none (v : value) : py_eq v VNone = is_none v.
Proof. destruct v; reflexivity. Qed.

Section QuizProperties.

Variable category_is : value -> Question.t -> bool.
Variable random : nat -> nat.

Lemma random_question_In (quiz : list Question.t) (k : nat)
      (new_question : value) :
  random_question random quiz k = Ok new_question ->
  exists q, In q quiz /\ new_question = Question.format q.
Proof.
  unfold random_question.
  destruct (choice quiz (random k)) as [q|e] eqn:Hchoice; [|discriminate].
  intro Heq. injection Heq as Heq. exists q.
  split; [exact (choice_In quiz (random k) q Hchoice) | congruence].
Qed.

Lemma if_used_py_in (previous_questions new_question : value) :
  if_used previous_questions new_question
  = py_in new_question previous_questions.
Proof.
  unfold if_used.
  destruct (py_in new_question previous_questions) as [[|]|e]; reflexivity.
Qed.

(** What [quiz_setup] has established when it hands over to the loop. *)
Lemma quiz_setup_ok (request : Request) (db db' : Store)
      (previous_questions new_question : value) (quiz : list Question.t) :
  quiz_setup category_is random request db
  = (Ok (previous_questions, quiz, new_question), db') ->
  db' = db
  /\ py_get (json request) "previous_questions" = Ok previous_questions
  /\ exists category category_id,
      py_get (json request) "quiz_category" = Ok category
      /\ py_getitem category "id" = Ok category_id
      /\ quiz = quiz_pool category_is category_id (questions db)
      /\ random_question random quiz 0 = Ok new_question.
Proof.
  unfold quiz_setup, bind, lift, abort, ret, Question_query_all.
  destruct (py_get (json request) "previous_questions")
    as [previous|e] eqn:Hprevious; [|discriminate].
  destruct (py_get (json request) "quiz_category")
    as [category|e] eqn:Hcategory; [|discriminate].
  destruct (py_eq category VNone || py_eq previous VNone); [discriminate|].
  destruct (py_getitem category "id") as [category_id|e] eqn:Hid;
    [|discriminate].
  fold (quiz_pool category_is category_id (questions db)).
  destruct (random_question random
              (quiz_pool category_is category_id (questions db)) 0)
    as [first|e] eqn:Hfirst; [|discriminate].
  intro Heq. injection Heq as Hp Hq Hn Hdb. subst.
  split; [reflexivity|]. split; [reflexivity|].
  exists category, category_id. repeat split; assumption.
Qed.

Lemma quiz_setup_store (request : Request) (db db' : Store)
      (r : result (value * list Question.t * value)) :
  quiz_setup category_is random request db = (r, db') -> db' = db.
Proof.
  unfold quiz_setup, bind, lift, abort, ret, Question_query_all.
  destruct (py_get (json request) "previous_questions") as [previous|e];
    [|intro Heq; injection Heq; auto].
  destruct (py_get (json request) "quiz_category") as [category|e];
    [|intro Heq; injection Heq; auto].
  destruct (py_eq category VNone || py_eq previous VNone);
    [intro Heq; injection Heq; auto|].
  destruct (py_getitem category "id") as [category_id|e];
    [|intro Heq; injection Heq; auto].
  match goal with
  | |- context [random_question random ?quiz 0] =>
      destruct (random_question random quiz 0)
  end; intro Heq; injection Heq; auto.
Qed.

(** The loop returns a candidate only after [if_used] has said no. *)
Lemma quiz_loop_answer (quiz : list Question.t)
      (previous_questions : value) (fuel k : nat)
      (new_question payload : value) :
  (exists q, In q quiz /\ new_question = Question.format q) ->
  quiz_loop random quiz previous_questions fuel k new_question
  = Some (Ok payload) ->
  payload = VDict [ success true ]
  \/ exists q,
      In q quiz
      /\ payload = VDict [ success true;
                           (KStr "question", Question.format q) ]
      /\ py_in (Question.format q) previous_questions = Ok false.
Proof.
  revert k new_question.
  induction fuel as [|fuel IH]; intros k new_question Hpool; simpl;
    rewrite if_used_py_in;
    destruct (py_in new_question previous_questions) as [[|]|e] eqn:Hin;
    try discriminate.
  - intro Heq. injection Heq as Heq. right.
    destruct Hpool as (q & Hq & ->). exists q. auto.
  - destruct (random_question random quiz k) as [next|e] eqn:Hnext;
      [|discriminate].
    destruct (py_len previous_questions) as [n|e]; [|discriminate].
    destruct (n =? Z.of_nat (List.length quiz)).
    + intro Heq. injection Heq as Heq. left. congruence.
    + apply IH. exact (random_question_In quiz k next Hnext).
  - intro Heq. injection Heq as Heq. right.
    destruct Hpool as (q & Hq & ->). exists q. auto.
Qed.

(** X13.  Whenever POST /quizzes answers 200, the payload is either the
    bare success or carries one question; that question is the formatted
    row of a question of the pool (all questions for category id 0, the
    filtered ones otherwise), the membership test against
    [previous_questions] is false for it, and the store is unchanged. *)
Theorem play_quiz_answer (fuel : nat) (request : Request) (db db' : Store)
        (payload : value) :
  play_quiz category_is random fuel request db = Some (Ok payload, db') ->
  db' = db
  /\ (payload = VDict [ success true ]
      \/ exists previous_questions category category_id q,
          py_get (json request) "previous_questions" = Ok previous_questions
          /\ py_get (json request) "quiz_category" = Ok category
          /\ py_getitem category "id" = Ok category_id
          /\ In q (quiz_pool category_is category_id (questions db))
          /\ payload = VDict [ success true;
                               (KStr "question", Question.format q) ]
          /\ py_in (Question.format q) previous_questions = Ok false).
Proof.
  unfold play_quiz.
  destruct (quiz_setup category_is random request db)
    as [[[[previous quiz] first]|e] db1] eqn:Hsetup; [|discriminate].
  destruct (quiz_setup_ok request db db1 previous first quiz Hsetup)
    as (Hdb & Hprevious & category & category_id & Hcategory & Hid
        & Hquiz & Hfirst).
  destruct (quiz_loop random quiz previous fuel 1 first) as [r|] eqn:Hloop;
    [|discriminate].
  intro Heq. injection Heq as Hr Hdb'. subst r db' db1.
  split; [reflexivity|].
  destruct (quiz_loop_answer quiz previous fuel 1 first payload
              (random_question_In quiz 0 first Hfirst) Hloop)
    as [Hbare|(q & Hq & Hpayload & Hunused)].
  - left. exact Hbare.
  - right. exists previous, category, category_id, q.
    subst quiz. repeat split; assumption.
Qed.

(** With every question of the pool in the history and a history of
    another length than the pool, no amount of fuel ends the loop. *)
Lemma quiz_loop_forever (quiz : list Question.t) (history : list value)
      (fuel k : nat) (new_question : value) :
  quiz <> [] ->
  (forall q, In q quiz ->
             existsb (fun y => py_eq y (Question.format q)) history = true) ->
  List.length history <> List.length quiz ->
  (exists q, In q quiz /\ new_question = Question.format q) ->
  quiz_loop random quiz (VList history) fuel k new_question = None.
Proof.
  intros Hsome Hserved Hlength. revert k new_question.
  induction fuel as [|fuel IH]; intros k new_question (q & Hq & ->); simpl;
    rewrite if_used_py_in; unfold py_in; rewrite (Hserved q Hq).
  - reflexivity.
  - destruct (random_question random quiz k) as [next|e] eqn:Hnext.
    + destruct (Z.eqb_spec (Z.of_nat (List.length history))
                           (Z.of_nat (List.length quiz))) as [Heq|_].
      * apply Nat2Z.inj in Heq. contradiction.
      * apply IH. exact (random_question_In quiz k next Hnext).
    + unfold random_question, choice in Hnext.
      destruct quiz; [contradiction | discriminate].
Qed.

Lemma quiz_setup_run (request : Request) (db : Store)
      (fields category : list (key * value))
      (previous_questions category_id : value) (q : Question.t) :
  json request = VDict fields ->
  Dict.get_default fields (KStr "previous_questions") VNone
  = previous_questions ->
  is_none previous_questions = false ->
  Dict.get_default fields (KStr "quiz_category") VNone = VDict category ->
  Dict.get category (KStr "id") = Some category_id ->
  choice (quiz_pool category_is category_id (questions db)) (random 0%nat)
  = Ok q ->
  quiz_setup category_is random request db
  = (Ok (previous_questions,
         quiz_pool category_is category_id (questions db),
         Question.format q), db).
Proof.
  intros Hbody Hprevious Hgiven Hcategory Hid Hchoice.
  unfold quiz_setup, bind, lift, py_get, py_getitem, Question_query_all,
    random_question.
  rewrite Hbody, Hprevious, Hcategory, Hid, !py_eq_none, Hgiven.
  cbn [is_none orb]. unfold ret.
  fold (quiz_pool category_is category_id (questions db)).
  rewrite Hchoice. reflexivity.
Qed.

(** X14.  POST /quizzes does not terminate when every question of the
    pool is in [previous_questions] and the history has another length
    than the pool (a repeated or foreign entry): every draw is used, the
    exhaustion test is false at each turn, and the loop is still running
    whatever the fuel. *)
Theorem play_quiz_never_ends (fuel : nat) (request : Request) (db : Store)
        (fields category : list (key * value)) (history : list value)
        (category_id : value) :
  json request = VDict fields ->
  Dict.get_default fields (KStr "previous_questions") VNone
  = VList history ->
  Dict.get_default fields (KStr "quiz_category") VNone = VDict category ->
  Dict.get category (KStr "id") = Some category_id ->
  quiz_pool category_is category_id (questions db) <> [] ->
  (forall q, In q (quiz_pool category_is category_id (questions db)) ->
             existsb (fun y => py_eq y (Question.format q)) history = true) ->
  List.length history
  <> List.length (quiz_pool category_is category_id (questions db)) ->
  play_quiz category_is random fuel request db = None.
Proof.
  intros Hbody Hprevious Hcategory Hid Hsome Hserved Hlength.
  destruct (choice (quiz_pool category_is category_id (questions db))
                   (random 0%nat)) as [q|e] eqn:Hchoice.
  - unfold play_quiz.
    rewrite (quiz_setup_run request db fields category (VList history)
               category_id q Hbody Hprevious eq_refl Hcategory Hid Hchoice).
    rewrite (quiz_loop_forever
               (quiz_pool category_is category_id (questions db))
               history fuel 1 (Question.format q) Hsome Hserved Hlength).
    + reflexivity.
    + exists q. split; [|reflexivity].
      exact (choice_In _ _ q Hchoice).
  - unfold choice in Hchoice.
    destruct (quiz_pool category_is category_id (questions db));
      [contradiction | discriminate].
Qed.

(** X15.  POST /quizzes answers the bare success when the first draw is
    in [previous_questions] and the history is as long as the pool: the
    loop is entered once and left by the exhaustion test, whatever the
    second draw. *)
Theorem play_quiz_exhausted (fuel : nat) (request : Request) (db : Store)
        (fields category : list (key * value)) (history : list value)
        (category_id : value) (q : Question.t) :
  json request = VDict fields ->
  Dict.get_default fields (KStr "previous_questions") VNone
  = VList history ->
  Dict.get_default fields (KStr "quiz_category") VNone = VDict category ->
  Dict.get category (KStr "id") = Some category_id ->
  choice (quiz_pool category_is category_id (questions db)) (random 0%nat)
  = Ok q ->
  existsb (fun y => py_eq y (Question.format q)) history = true ->
  List.length history
  = List.length (quiz_pool category_is category_id (questions db)) ->
  serve_quiz (play_quiz category_is random (S fuel) request db)
  = Some (ok (VDict [ success true ]), db).
Proof.
  intros Hbody Hprevious Hcategory Hid Hchoice Hused Hlength.
  unfold play_quiz.
  rewrite (quiz_setup_run request db fields category (VList history)
             category_id q Hbody Hprevious eq_refl Hcategory Hid Hchoice).
  simpl quiz_loop. rewrite if_used_py_in. unfold py_in. rewrite Hused.
  destruct (random_question random
              (quiz_pool category_is category_id (questions db)) 1)
    as [next|e] eqn:Hnext.
  - unfold py_len. rewrite Hlength, Z.eqb_refl. reflexivity.
  - unfold random_question, choice in Hnext, Hchoice.
    destruct (quiz_pool category_is category_id (questions db));
      discriminate.
Qed.

(** X16.  POST /quizzes with a JSON object in which [previous_questions]
    or [quiz_category] is missing or null answers 422, before the store
    is read and without a draw. *)
Theorem play_quiz_missing_input (fuel : nat) (request : Request)
        (db : Store) (fields : list (key * value)) :
  json request = VDict fields ->
  Dict.get_default fields (KStr "previous_questions") VNone = VNone
  \/ Dict.get_default fields (KStr "quiz_category") VNone = VNone ->
  serve_quiz (play_quiz category_is random fuel request db)
  = Some (unprocessable, db).
Proof.
  intros Hbody Hmissing.
  unfold play_quiz, quiz_setup, bind, lift, py_get.
  rewrite Hbody, !py_eq_none.
  destruct Hmissing as [H|H]; rewrite H; cbn [is_none];
    rewrite ?orb_true_r; reflexivity.
Qed.

(** X17.  POST /quizzes with both inputs present and a [quiz_category]
    object without an [id] entry answers 500: the [KeyError] of
    [category['id']] is outside any [try]. *)
Theorem play_quiz_category_without_id (fuel : nat) (request : Request)
        (db : Store) (fields category : list (key * value)) :
  json request = VDict fields ->
  is_none (Dict.get_default fields (KStr "previous_questions") VNone)
  = false ->
  Dict.get_default fields (KStr "quiz_category") VNone = VDict category ->
  Dict.get category (KStr "id") = None ->
  serve_quiz (play_quiz category_is random fuel request db)
  = Some (internal_server_error, db).
Proof.
  intros Hbody Hprevious Hcategory Hid.
  unfold play_quiz, quiz_setup, bind, lift, py_get, py_getitem.
  rewrite Hbody, Hcategory, Hid, !py_eq_none, Hprevious. reflexivity.
Qed.

End QuizProperties.

Lemma play_quiz_answer_witness :
  Fixture.trivia = Fixture.trivia
  /\ (VDict [ success true; (KStr "question", Question.format Fixture.q2) ]
      = VDict [ success true ]
      \/ exists previous_questions category category_id q,
          py_get (json (Fixture.quiz_request
                          [Question.format Fixture.q1] 0))
                 "previous_questions" = Ok previous_questions
          /\ py_get (json (Fixture.quiz_request
                             [Question.format Fixture.q1] 0))
                    "quiz_category" = Ok category
          /\ py_getitem category "id" = Ok category_id
          /\ In q (quiz_pool Fixture.category_is category_id
                             (questions Fixture.trivia))
          /\ VDict [ success true;
                     (KStr "question", Question.format Fixture.q2) ]
             = VDict [ success true;
                       (KStr "question", Question.format q) ]
          /\ py_in (Question.format q) previous_questions = Ok false).
Proof.
  apply (play_quiz_answer Fixture.category_is (fun k => k) 5
           (Fixture.quiz_request [Question.format Fixture.q1] 0)
           Fixture.trivia Fixture.trivia
           (VDict [ success true;
                    (KStr "question", Question.format Fixture.q2) ])).
  reflexivity.
Defined.

Lemma play_quiz_never_ends_witness :
  play_quiz Fixture.category_is (fun k => k) 1000
            (Fixture.quiz_request
               [Question.format Fixture.q1; Question.format Fixture.q1] 0)
            Fixture.single
  = None.
Proof.
  apply (play_quiz_never_ends Fixture.category_is (fun k => k) 1000
           (Fixture.quiz_request
              [Question.format Fixture.q1; Question.format Fixture.q1] 0)
           Fixture.single
           [ (KStr "previous_questions",
              VList [Question.format Fixture.q1;
                     Question.format Fixture.q1]);
             (KStr "quiz_category",
              VDict [ (KStr "type", VStr "click"); (KStr "id", VInt 0) ]) ]
           [ (KStr "type", VStr "click"); (KStr "id", VInt 0) ]
           [Question.format Fixture.q1; Question.format Fixture.q1]
           (VInt 0)).
  - reflexivity.
  - reflexivity.
  - reflexivity.
  - reflexivity.
  - discriminate.
  - intros q [Hq|[]]. rewrite <- Hq. reflexivity.
  - discriminate.
Defined.

Lemma play_quiz_exhausted_witness :
  serve_quiz (play_quiz Fixture.category_is (fun _ => 0%nat) 1
                (Fixture.quiz_request [Question.format Fixture.q3] 2)
                Fixture.trivia)
  = Some (ok (VDict [ success true ]), Fixture.trivia).
Proof.
  apply (play_quiz_exhausted Fixture.category_is (fun _ => 0%nat) 0
           (Fixture.quiz_request [Question.format Fixture.q3] 2)
           Fixture.trivia
           [ (KStr "previous_questions",
              VList [Question.format Fixture.q3]);
             (KStr "quiz_category",
              VDict [ (KStr "type", VStr "click"); (KStr "id", VInt 2) ]) ]
           [ (KStr "type", VStr "click"); (KStr "id", VInt 2) ]
           [Question.format Fixture.q3] (VInt 2) Fixture.q3);
    reflexivity.
Defined.

Lemma play_quiz_missing_input_witness :
  serve_quiz (play_quiz Fixture.category_is (fun _ => 0%nat) 0
                (Fixture.post_request
                   [ (KStr "previous_questions", VList []) ])
                Fixture.trivia)
  = Some (unprocessable, Fixture.trivia).
Proof.
  apply (play_quiz_missing_input Fixture.category_is (fun _ => 0%nat) 0
           (Fixture.post_request [ (KStr "previous_questions", VList []) ])
           Fixture.trivia [ (KStr "previous_questions", VList []) ]).
  - reflexivity.
  - right. reflexivity.
Defined.

Lemma play_quiz_category_without_id_witness :
  serve_quiz (play_quiz Fixture.category_is (fun _ => 0%nat) 0
                (Fixture.post_request
                   [ (KStr "previous_questions", VList []);
                     (KStr "quiz_category",
                      VDict [ (KStr "type", VStr "Science") ]) ])
                Fixture.trivia)
  = Some (internal_server_error, Fixture.trivia).
Proof.
  apply (play_quiz_category_without_id Fixture.category_is
           (fun _ => 0%nat) 0
           (Fixture.post_request
              [ (KStr "previous_questions", VList []);
                (KStr "quiz_category",
                 VDict [ (KStr "type", VStr "Science") ]) ])
           Fixture.trivia
           [ (KStr "previous_questions", VList []);
             (KStr "quiz_category",
              VDict [ (KStr "type", VStr "Science") ]) ]
           [ (KStr "type", VStr "Science") ]);
    reflexivity.
Defined.

(** ** All routes *)

Section Routes.

Variable py_str : value -> string.
Variable ilike : string -> string -> bool.
Variable category_is : value -> Question.t -> bool.
Variable Question_insert : value -> value -> value -> value -> M Z.
Variable random : nat -> nat.

Lemma try_except_store (m : M value) (code : Z) (db db' : Store)
      (r : result value) :
  (forall r1 db1, m db = (r1, db1) -> db1 = db) ->
  try_except m (abort code) db = (r, db') -> db' = db.
Proof.
  intro Hm. unfold try_except.
  destruct (m db) as [[payload|e] db1] eqn:Hrun;
    intro Heq; injection Heq as _ Hdb; subst db';
    exact (Hm _ _ eq_refl).
Qed.

(** X18.  Only DELETE /questions/{id} and POST /questions can change the
    store: every other route leaves it as it was, for every request body
    and whether it answers with a payload or an error. *)
Theorem app_read_only (fuel : nat) (route : Route) (request : Request)
        (db db' : Store) (response : Response) :
  writes route = false ->
  app py_str ilike category_is Question_insert random fuel route request db
  = Some (response, db') ->
  db' = db.
Proof.
  intros Hroute Happ.
  destruct route; try discriminate Hroute; simpl in Happ.
  - unfold serve, retrieve_categories, bind, Category_query_all in Happ.
    destruct (Z.of_nat (List.length (categories db)) =? 0);
      injection Happ; auto.
  - unfold serve in Happ. rewrite retrieve_questions_run in Happ.
    injection Happ; auto.
  - unfold serve in Happ.
    destruct (search_questions py_str ilike request db) as [r db1] eqn:Hrun.
    injection Happ as _ Hdb. subst db'.
    unfold search_questions, bind, lift in Hrun.
    destruct (py_get (json request) "searchTerm") as [search|e];
      [|injection Hrun; auto].
    apply (try_except_store _ 404 db db1 r) in Hrun; [exact Hrun|].
    intros r1 db2. unfold Question_query_all, ret, raise, jsonify.
    destruct (truthy search); intro Heq; injection Heq; auto.
  - unfold serve in Happ.
    destruct (retrieve_questions_by_category py_str category_is
                category_id db) as [r db1] eqn:Hrun.
    injection Happ as _ Hdb. subst db'.
    apply (try_except_store _ 400 db db1 r) in Hrun; [exact Hrun|].
    intros r1 db2. unfold bind, Question_query_all, jsonify, ret.
    intro Heq; injection Heq; auto.
  - unfold serve_quiz, play_quiz in Happ.
    destruct (quiz_setup category_is random request db)
      as [[[[previous quiz] first]|e] db1] eqn:Hsetup.
    + apply quiz_setup_store in Hsetup. subst db1.
      destruct (quiz_loop random quiz previous fuel 1 first);
        [|discriminate].
      injection Happ; auto.
    + apply quiz_setup_store in Hsetup. injection Happ; auto.
      intros; congruence.
Qed.

(** X19.  The three POST routes answer 500 when the JSON body is not an
    object (null, a list, a string, a number): [body.get] is called
    before any [try].  The store is unchanged. *)
Theorem app_body_not_an_object (fuel : nat) (route : Route)
        (request : Request) (db : Store) :
  reads_body route = true ->
  (forall fields, json request <> VDict fields) ->
  app py_str ilike category_is Question_insert random fuel route request db
  = Some (internal_server_error, db).
Proof.
  intros Hroute Hbody.
  assert (Hget : forall name,
             py_get (json request) name = raise AttributeError).
  { intro name. unfold py_get.
    destruct (json request) as [| | | | |fields] eqn:Hjson;
      try reflexivity.
    exfalso. exact (Hbody fields eq_refl). }
  destruct route; try discriminate Hroute; simpl.
  - unfold serve, create_question, bind, lift. rewrite Hget. reflexivity.
  - unfold serve, search_questions, bind, lift. rewrite Hget. reflexivity.
  - unfold play_quiz, quiz_setup, bind, lift. rewrite Hget. reflexivity.
Qed.

End Routes.

Lemma app_read_only_witness :
  app Fixture.str Fixture.ilike Fixture.category_is Fixture.insert
      (fun k => k) 5 POST_quizzes
      (Fixture.quiz_request [Question.format Fixture.q1] 0) Fixture.trivia
  = Some (ok (VDict [ success true;
                      (KStr "question", Question.format Fixture.q2) ]),
          Fixture.trivia)
  /\ Fixture.trivia = Fixture.trivia.
Proof.
  split; [reflexivity|].
  apply (app_read_only Fixture.str Fixture.ilike Fixture.category_is
           Fixture.insert (fun k => k) 5 POST_quizzes
           (Fixture.quiz_request [Question.format Fixture.q1] 0)
           Fixture.trivia Fixture.trivia
           (ok (VDict [ success true;
                        (KStr "question", Question.format Fixture.q2) ]))).
  - reflexivity.
  - reflexivity.
Defined.

Lemma app_body_not_an_object_witness :
  app Fixture.str Fixture.ilike Fixture.category_is Fixture.insert
      (fun k => k) 0 POST_questions
      {| args_page := None; json := VList [VInt 1; VInt 2] |}
      Fixture.trivia
  = Some (internal_server_error, Fixture.trivia).
Proof.
  apply (app_body_not_an_object Fixture.str Fixture.ilike
           Fixture.category_is Fixture.insert (fun k => k) 0 POST_questions
           {| args_page := None; json := VList [VInt 1; VInt 2] |}
           Fixture.trivia).
  - reflexivity.
  - discriminate.
Defined.

(** X20.  POST /quizzes answers with its first draw whenever that draw is
    not an element of [previous_questions], without entering the loop:
    the lengths of the history and of the pool play no part, and no fuel
    is needed. *)
Theorem play_quiz_first_draw (category_is : value -> Question.t -> bool)
        (random : nat -> nat) (fuel : nat) (request : Request) (db : Store)
        (fields category : list (key * value)) (history : list value)
        (category_id : value) (q : Question.t) :
  json request = VDict fields ->
  Dict.get_default fields (KStr "previous_questions") VNone
  = VList history ->
  Dict.get_default fields (KStr "quiz_category") VNone = VDict category ->
  Dict.get category (KStr "id") = Some category_id ->
  choice (quiz_pool category_is category_id (questions db)) (random 0%nat)
  = Ok q ->
  existsb (fun y => py_eq y (Question.format q)) history = false ->
  serve_quiz (play_quiz category_is random fuel request db)
  = Some (ok (VDict [ success true;
                      (KStr "question", Question.format q) ]), db).
Proof.
  intros Hbody Hprevious Hcategory Hid Hchoice Hunused.
  unfold play_quiz.
  rewrite (quiz_setup_run category_is random request db fields category
             (VList history) category_id q
             Hbody Hprevious eq_refl Hcategory Hid Hchoice).
  destruct fuel; simpl quiz_loop; rewrite if_used_py_in; unfold py_in;
    rewrite Hunused; reflexivity.
Qed.

Lemma play_quiz_first_draw_witness :
  serve_quiz (play_quiz Fixture.category_is (fun _ => 0%nat) 0
                (Fixture.quiz_request [Question.format Fixture.q1] 2)
                Fixture.trivia)
  = Some (ok (VDict [ success true;
                      (KStr "question", Question.format Fixture.q3) ]),
          Fixture.trivia).
Proof.
  apply (play_quiz_first_draw Fixture.category_is (fun _ => 0%nat) 0
           (Fixture.quiz_request [Question.format Fixture.q1] 2)
           Fixture.trivia
           [ (KStr "previous_questions",
              VList [Question.format Fixture.q1]);
             (KStr "quiz_category",
              VDict [ (KStr "type", VStr "click"); (KStr "id", VInt 2) ]) ]
           [ (KStr "type", VStr "click"); (KStr "id", VInt 2) ]
           [Question.format Fixture.q1] (VInt 2) Fixture.q3);
    reflexivity.
Defined.
